(** * TgBotPassword: a shallow embedding of the password bot

    The repository holds two versions of one Telegram bot:
    [src/main.py] (settings kept in a JSON file, defensive reads of the
    class flags, an explicit branch for short lengths) and
    [src/telegram_password_bot.py] (the earlier, in-memory version).

    Python objects are modelled as follows.
    - A settings dict is a [gmap string value]; [value] holds [None],
      booleans, integers and strings.  Floats and nested containers, which
      the bot never writes into a config, are left out.
    - A [str] made of ASCII characters is a [string]; one character is an
      [ascii].
    - The [random] module is an oracle: a tape of naturals read from left
      to right.  [randbelow n] is the next cell modulo [n], so every
      sequence of outcomes the real generator can produce is produced by
      some tape, and every theorem below quantifies over all tapes.
    - Exceptions are results: a computation is a function from a state to
      a result and a new state, and the state survives a raise. *)

From Stdlib Require Import ZArith String Ascii List Lia.
From stdpp Require Import base option list gmap strings pretty.

Open Scope string_scope.
Open Scope list_scope.
Open Scope Z_scope.

(** ** Python values, exceptions and the state-and-error monad *)

Module Py.

Inductive value :=
  | VNone
  | VBool (b : bool)
  | VInt (z : Z)
  | VStr (s : string).

Inductive exn :=
  | KeyError (k : string)
  | TypeError
  | IndexError
  | OSError
  | UnicodeDecodeError
  | JSONDecodeError (msg : string)
  | RecursionError
  | ValueError.

Inductive result (A : Type) :=
  | Ok (a : A)
  | Raise (e : exn).
Arguments Ok {A} a.
Arguments Raise {A} e.

Definition M (S A : Type) : Type := S -> result A * S.

Definition raise {S A} (e : exn) : M S A := fun s => (Raise e, s).
Definition of_result {S A} (r : result A) : M S A := fun s => (r, s).
Definition gets {S A} (f : S -> A) : M S A := fun s => (Ok (f s), s).
Definition modify {S} (f : S -> S) : M S unit := fun s => (Ok (), f s).

(** The monad operations are stdpp's [mret] and [mbind], so that
    [x ← m; k] sequences two computations and a raise in [m] skips [k]. *)
#[global] Instance M_ret {S} : MRet (M S) := fun A a s => (Ok a, s).
#[global] Instance M_bind {S} : MBind (M S) := fun A B k m s =>
  match m s with
  | (Ok a, s') => k a s'
  | (Raise e, s') => (Raise e, s')
  end.

(** [bool(v)]: the truth value Python gives a scalar. *)
Definition truthy (v : value) : bool :=
  match v with
  | VNone => false
  | VBool b => b
  | VInt z => negb (z =? 0)
  | VStr s => negb (String.eqb s "")
  end.

(** The integer an [int] or a [bool] stands for in arithmetic, comparison
    and slicing; [None] for the values on which those raise [TypeError]. *)
Definition as_int (v : value) : option Z :=
  match v with
  | VInt z => Some z
  | VBool b => Some (if b then 1 else 0)
  | VNone | VStr _ => None
  end.

(** [str(v)]. *)
Definition str (v : value) : string :=
  match v with
  | VNone => "None"
  | VBool b => if b then "True" else "False"
  | VInt z => pretty z
  | VStr s => s
  end.

(** [d[k]] and [d.get(k, default)]. *)
Definition getitem (d : gmap string value) (k : string) : result value :=
  match d !! k with
  | Some v => Ok v
  | None => Raise (KeyError k)
  end.

(** [d[k]] on the table of per-user dicts. *)
Definition getitem_table (d : gmap string (gmap string value)) (k : string)
  : result (gmap string value) :=
  match d !! k with
  | Some v => Ok v
  | None => Raise (KeyError k)
  end.

Definition get (d : gmap string value) (k : string) (default : value) : value :=
  match d !! k with
  | Some v => v
  | None => default
  end.

(** [l[:stop]] for an integer [stop]: a negative [stop] counts from the
    end, and the bounds are clipped to the list. *)
Definition slice_to {A} (l : list A) (stop : Z) : list A :=
  if stop <? 0
  then take (Z.to_nat (Z.of_nat (length l) + stop)) l
  else take (Z.to_nat stop) l.

(** ** The random oracle *)

Record Rng := { tape : nat -> nat; pos : nat }.

Definition randbelow (n : nat) (g : Rng) : nat * Rng :=
  ((tape g (pos g) mod n)%nat, {| tape := tape g; pos := S (pos g) |}).

(** [random.choice(seq)] is [seq[randbelow(len(seq))]]; an empty sequence
    raises [IndexError]. *)
Definition choice {A} (seq : list A) : M Rng A := fun g =>
  match seq with
  | [] => (Raise IndexError, g)
  | _ :: _ =>
      let '(j, g') := randbelow (length seq) g in
      match seq !! j with
      | Some c => (Ok c, g')
      | None => (Raise IndexError, g')
      end
  end.

(** [[random.choice(seq) for _ in range(n)]]. *)
Fixpoint choices {A} (n : nat) (seq : list A) : M Rng (list A) :=
  match n with
  | O => mret []
  | S n' => c ← choice seq; cs ← choices n' seq; mret (c :: cs)
  end.

(** [x[i], x[j] = x[j], x[i]]: both reads come first, then the two
    writes; an index out of range raises [IndexError]. *)
Definition swap {A} (x : list A) (i j : nat) : result (list A) :=
  match x !! j, x !! i with
  | Some xj, Some xi => Ok (<[j := xi]> (<[i := xj]> x))
  | _, _ => Raise IndexError
  end.

(** The loop of [random.shuffle]:
    [for i in reversed(range(1, len(x))): j = randbelow(i + 1); swap].
    [shuffle_from k x] runs the iterations [i = k, k-1, ..., 1]. *)
Fixpoint shuffle_from {A} (k : nat) (x : list A) : M Rng (list A) :=
  match k with
  | O => mret x
  | S k' => fun g =>
      let '(j, g') := randbelow (S k) g in
      match swap x k j with
      | Ok x' => shuffle_from k' x' g'
      | Raise e => (Raise e, g')
      end
  end.

Definition shuffle {A} (x : list A) : M Rng (list A) :=
  shuffle_from (length x - 1)%nat x.

(** ** The [string] module constants and [str.join] *)

Definition ascii_lowercase : list ascii :=
  list_ascii_of_string "abcdefghijklmnopqrstuvwxyz".
Definition ascii_uppercase : list ascii :=
  list_ascii_of_string "ABCDEFGHIJKLMNOPQRSTUVWXYZ".
Definition digits : list ascii :=
  list_ascii_of_string "0123456789".

(** [''.join(chars)]. *)
Definition join (chars : list ascii) : string := string_of_list_ascii chars.

End Py.
Import Py.

(** ** Character classes

    The four class flags and the characters each one contributes, in the
    order in which [generate_password] inspects them.  The two source files
    differ only in the symbol set, which is a parameter here. *)

Module Classes.

Definition class_table (symbols : list ascii) : list (string * list ascii) :=
  [ ("use_lower", ascii_lowercase);
    ("use_upper", ascii_uppercase);
    ("use_digits", digits);
    ("use_symbols", symbols) ].

(** A class is enabled when its flag is present and true; a missing flag
    counts as [False]. *)
Definition enabled (settings : gmap string value) (flag : string) : bool :=
  truthy (get settings flag (VBool false)).

Definition enabled_classes (symbols : list ascii) (settings : gmap string value)
  : list (list ascii) :=
  (filter (fun p => enabled settings p.1 = true) (class_table symbols)).*2.

Definition class_flags : list string :=
  ["use_lower"; "use_upper"; "use_digits"; "use_symbols"].

(** The number of enabled classes. *)
Definition enabled_count (settings : gmap string value) : nat :=
  length (filter (fun flag => enabled settings flag = true) class_flags).

End Classes.
Import Classes.

(** ** [src/main.py]: the password generator *)

Module Main.

Definition symbols : list ascii :=
  list_ascii_of_string "!@#$%^&*()_+-=[]{}|;:,.<>".

(** The message returned when no class is selected. *)
Definition NO_CLASS_MESSAGE : string :=
  "Ошибка: Выберите хотя бы один тип символов!".

(** One [if settings.get(flag, False):] block: extend the pool with the
    class and append one random character of the class to the guaranteed
    ones.  [acc] is the pair [(character_pool, guaranteed_chars)]. *)
Definition use_class (settings : gmap string value) (flag : string)
    (chars : list ascii) (acc : list ascii * list ascii)
  : M Rng (list ascii * list ascii) :=
  if truthy (get settings flag (VBool false))
  then c ← choice chars; mret (acc.1 ++ chars, acc.2 ++ [c])
  else mret acc.

Definition generate_password (settings : gmap string value) : M Rng string :=
  length_ ← of_result (getitem settings "length");
  acc ← use_class settings "use_lower" ascii_lowercase ([], []);
  acc ← use_class settings "use_upper" ascii_uppercase acc;
  acc ← use_class settings "use_digits" digits acc;
  acc ← use_class settings "use_symbols" symbols acc;
  let character_pool := acc.1 in
  let guaranteed_chars := acc.2 in
  if bool_decide (character_pool = []) then mret NO_CLASS_MESSAGE
  else
    match as_int length_ with
    | None => raise TypeError
    | Some n =>
        if n <? Z.of_nat (length guaranteed_chars) then
          shuffled ← shuffle guaranteed_chars;
          mret (join (slice_to shuffled n))
        else
          let remaining_length := n - Z.of_nat (length guaranteed_chars) in
          fill ← choices (Z.to_nat remaining_length) character_pool;
          password_list ← shuffle (guaranteed_chars ++ fill);
          mret (join password_list)
    end.

(** *** The settings store *)

(** Callback-query constants. *)
Definition LEN_INCR : string := "len_incr".
Definition LEN_DECR : string := "len_decr".
Definition LEN_INFO : string := "len_info".
Definition TOGGLE_UPPER : string := "toggle_upper".
Definition TOGGLE_LOWER : string := "toggle_lower".
Definition TOGGLE_DIGITS : string := "toggle_digits".
Definition TOGGLE_SYMBOLS : string := "toggle_symbols".
Definition GENERATE : string := "generate".

(** [user_settings.json], described by what [Path.exists], [open] and
    [json.load] make of it:
    - [NoFile]: the file is absent;
    - [Unreadable]: it is present but [open] raises [OSError];
    - [Undecodable]: it is not valid UTF-8 ([UnicodeDecodeError] on read);
    - [Malformed msg]: [json.load] raises [JSONDecodeError] with message
      [msg];
    - [DecoderRaises e]: [json.load] raises another exception [e], such as
      [RecursionError] on text nested deeper than the interpreter allows
      or [ValueError] on an integer literal longer than the conversion
      limit;
    - [Document table]: [json.load] returns a JSON object of settings
      objects. *)
Inductive file :=
  | NoFile
  | Unreadable
  | Undecodable
  | Malformed (msg : string)
  | DecoderRaises (e : exn)
  | Document (table : gmap string (gmap string value)).

Inductive level := INFO | ERROR | CRITICAL.

Record button := { text : string; callback_data : string }.

(** Calls made on the Telegram transport. *)
Inductive effect :=
  | Answer
  | SendMessage (chat_id : Z) (body : string)
  | EditMessageText (body : string) (keyboard : list (list button))
  | ReplyText (body : string) (keyboard : list (list button)).

(** Everything a handler can read or change: the module-level
    [user_settings] dict, the random generator, the settings file, whether
    the file can be opened for writing ([Some msg]: [open] raises [IOError]
    with that message), the log and the transport. *)
Record World := mkWorld {
  user_settings : gmap string (gmap string value);
  rng : Rng;
  settings_file : file;
  write_error : option string;
  log : list (level * string);
  outbox : list effect }.

Definition with_user_settings (t : gmap string (gmap string value)) (w : World) : World :=
  mkWorld t (rng w) (settings_file w) (write_error w) (log w) (outbox w).
Definition with_rng (g : Rng) (w : World) : World :=
  mkWorld (user_settings w) g (settings_file w) (write_error w) (log w) (outbox w).
Definition with_settings_file (f : file) (w : World) : World :=
  mkWorld (user_settings w) (rng w) f (write_error w) (log w) (outbox w).
Definition with_log (l : list (level * string)) (w : World) : World :=
  mkWorld (user_settings w) (rng w) (settings_file w) (write_error w) l (outbox w).
Definition with_outbox (o : list effect) (w : World) : World :=
  mkWorld (user_settings w) (rng w) (settings_file w) (write_error w) (log w) o.

(** [logger.error(msg)]. *)
Definition logger_error (msg : string) : M World unit :=
  modify (fun w => with_log (log w ++ [(ERROR, msg)]) w).

Definition emit (e : effect) : M World unit :=
  modify (fun w => with_outbox (outbox w ++ [e]) w).

(** Run a computation on the random generator inside the world. *)
Definition with_random {A} (m : M Rng A) : M World A := fun w =>
  let '(r, g') := m (rng w) in (r, with_rng g' w).

(** [except json.JSONDecodeError as e]: log the error and answer with
    the empty table; any other exception leaves the function. *)
Definition except_json_decode_error (e : exn)
  : M World (gmap string (gmap string value)) :=
  match e with
  | JSONDecodeError msg =>
      logger_error ("Ошибка декодирования JSON из user_settings.json: " +:+ msg);;
      mret ∅
  | _ => raise e
  end.

Definition load_user_settings : M World (gmap string (gmap string value)) := fun w =>
  match settings_file w with
  | NoFile => (Ok ∅, w)
  | Unreadable => except_json_decode_error OSError w
  | Undecodable => except_json_decode_error UnicodeDecodeError w
  | Malformed msg => except_json_decode_error (JSONDecodeError msg) w
  | DecoderRaises e => except_json_decode_error e w
  | Document table => (Ok table, w)
  end.

Definition save_user_settings (settings : gmap string (gmap string value))
  : M World unit := fun w =>
  match write_error w with
  | None => (Ok (), with_settings_file (Document settings) w)
  | Some msg =>
      logger_error ("Ошибка записи в файл user_settings.json: " +:+ msg) w
  end.

Definition get_default_settings : gmap string value :=
  <["length" := VInt 16]> (<["use_upper" := VBool true]>
  (<["use_lower" := VBool true]> (<["use_digits" := VBool true]>
  (<["use_symbols" := VBool true]> ∅)))).

(** Module start: [user_settings = load_user_settings()]. *)
Definition startup : M World unit :=
  table ← load_user_settings;
  modify (with_user_settings table).

(** The returned dict is the object stored in the table: the handlers
    below write to it through [setitem]. *)
Definition get_user_config (user_id : Z) : M World (gmap string value) := fun w =>
  let user_id_str := pretty user_id in
  let w' := if bool_decide (is_Some (user_settings w !! user_id_str)) then w
            else with_user_settings
                   (<[user_id_str := get_default_settings]> (user_settings w)) w in
  (getitem_table (user_settings w') user_id_str, w').

(** [config[key] = v] on the dict stored under [user_id_str]. *)
Definition setitem (user_id_str key : string) (v : value) : M World unit :=
  modify (fun w =>
    with_user_settings
      (alter (fun config => <[key := v]> config) user_id_str (user_settings w)) w).

(** *** The menu and the handlers *)

Definition icon (v : value) : string := if truthy v then "✅" else "❌".

Definition build_menu (user_id : Z) (from_callback : bool) (message_text : string)
  : M World unit :=
  config ← get_user_config user_id;
  upper ← of_result (getitem config "use_upper");
  lower ← of_result (getitem config "use_lower");
  digits ← of_result (getitem config "use_digits");
  symbols ← of_result (getitem config "use_symbols");
  length_ ← of_result (getitem config "length");
  let keyboard :=
    [ [ Build_button "➖" LEN_DECR;
        Build_button ("Длина: " +:+ str length_) LEN_INFO;
        Build_button "➕" LEN_INCR ];
      [ Build_button (icon upper +:+ " Заглавные") TOGGLE_UPPER;
        Build_button (icon lower +:+ " Строчные") TOGGLE_LOWER ];
      [ Build_button (icon digits +:+ " Цифры") TOGGLE_DIGITS;
        Build_button (icon symbols +:+ " Символы") TOGGLE_SYMBOLS ];
      [ Build_button "🔑 Сгенерировать пароль 🔑" GENERATE ] ] in
  if from_callback then emit (EditMessageText message_text keyboard)
  else emit (ReplyText message_text keyboard).

Definition WELCOME : string := "
👋 *Привет! Я бот для генерации паролей.*

Используйте кнопки ниже, чтобы настроить параметры и сгенерировать пароль.
".
Definition SETTINGS_CHANGED : string := "⚙️ *Настройки изменены:*".
Definition NEXT_PASSWORD : string := "⚙️ *Новые настройки для следующего пароля:*".

Definition password_message (password : string) : string :=
  "Ваш новый пароль:
`" +:+ password +:+ "`

Нажмите на него, чтобы скопировать.".

Definition start_command (user_id : Z) : M World unit :=
  build_menu user_id false WELCOME.

(** [config[key] = not config[key]]. *)
Definition toggle (user_id_str key : string) (config : gmap string value)
  : M World unit :=
  v ← of_result (getitem config key);
  setitem user_id_str key (VBool (negb (truthy v))).

(** [config["length"] + delta]; a length that is not a number raises
    [TypeError]. *)
Definition length_plus (config : gmap string value) (delta : Z) : M World Z :=
  v ← of_result (getitem config "length");
  match as_int v with
  | Some n => mret (n + delta)
  | None => raise TypeError
  end.

Definition button_callback (action : string) (user_id chat_id : Z) : M World unit :=
  emit Answer;;
  config ← get_user_config user_id;
  let user_id_str := pretty user_id in
  '(needs_update, message) ←
    (if String.eqb action LEN_INCR then
       n ← length_plus config 1;
       setitem user_id_str "length" (VInt (Z.min 64 n));;
       mret (true, SETTINGS_CHANGED)
     else if String.eqb action LEN_DECR then
       n ← length_plus config (-1);
       setitem user_id_str "length" (VInt (Z.max 4 n));;
       mret (true, SETTINGS_CHANGED)
     else if String.eqb action TOGGLE_UPPER then
       toggle user_id_str "use_upper" config;; mret (true, SETTINGS_CHANGED)
     else if String.eqb action TOGGLE_LOWER then
       toggle user_id_str "use_lower" config;; mret (true, SETTINGS_CHANGED)
     else if String.eqb action TOGGLE_DIGITS then
       toggle user_id_str "use_digits" config;; mret (true, SETTINGS_CHANGED)
     else if String.eqb action TOGGLE_SYMBOLS then
       toggle user_id_str "use_symbols" config;; mret (true, SETTINGS_CHANGED)
     else if String.eqb action GENERATE then
       password ← with_random (generate_password config);
       emit (SendMessage chat_id (password_message password));;
       mret (true, NEXT_PASSWORD)
     else mret (false, SETTINGS_CHANGED));
  if (needs_update : bool) then
    table ← gets user_settings;
    save_user_settings table;;
    build_menu user_id true message
  else mret ().

(** The bot as a state machine: each button press is one update, handled
    on the world the previous one left; an exception raised by a handler
    ends that update only. *)
Fixpoint press_all (actions : list string) (user_id chat_id : Z) (w : World) : World :=
  match actions with
  | [] => w
  | action :: rest => press_all rest user_id chat_id (button_callback action user_id chat_id w).2
  end.

End Main.

(** ** [src/telegram_password_bot.py]: the password generator *)

Module TelegramPasswordBot.

Definition symbols : list ascii :=
  list_ascii_of_string "!@#$%^&*()_+-=[]{}|;:,.<>?".

Definition NO_CLASS_MESSAGE : string :=
  "Ошибка: Выберите хотя бы один тип символов!".

(** One [if settings[flag]:] block; a missing flag raises [KeyError]. *)
Definition use_class (settings : gmap string value) (flag : string)
    (chars : list ascii) (acc : list ascii * list ascii)
  : M Rng (list ascii * list ascii) :=
  on ← of_result (getitem settings flag);
  if truthy on
  then c ← choice chars; mret (acc.1 ++ chars, acc.2 ++ [c])
  else mret acc.

(** There is no branch for short lengths: [range] of a negative number is
    empty, so the fill is empty and the guaranteed characters are returned
    whole. *)
Definition generate_password (settings : gmap string value) : M Rng string :=
  length_ ← of_result (getitem settings "length");
  acc ← use_class settings "use_lower" ascii_lowercase ([], []);
  acc ← use_class settings "use_upper" ascii_uppercase acc;
  acc ← use_class settings "use_digits" digits acc;
  acc ← use_class settings "use_symbols" symbols acc;
  let character_pool := acc.1 in
  let guaranteed_chars := acc.2 in
  if bool_decide (character_pool = []) then mret NO_CLASS_MESSAGE
  else
    match as_int length_ with
    | None => raise TypeError
    | Some n =>
        let remaining_length := n - Z.of_nat (length guaranteed_chars) in
        fill ← choices (Z.to_nat remaining_length) character_pool;
        password_list ← shuffle (guaranteed_chars ++ fill);
        mret (join password_list)
    end.

End TelegramPasswordBot.

(** ** Concrete inputs used by the examples below *)

(** A settings dict with all five keys. *)
Definition example_settings (n : Z) (upper lower digits symbols : bool)
  : gmap string value :=
  <["length" := VInt n]> (<["use_upper" := VBool upper]>
  (<["use_lower" := VBool lower]> (<["use_digits" := VBool digits]>
  (<["use_symbols" := VBool symbols]> ∅)))).

(** A random tape: cell [i] holds [3 i^2 + i + 1]. *)
Definition example_rng : Rng :=
  {| tape := fun i => (3 * i * i + i + 1)%nat; pos := 0 |}.

(** A world with the given settings table, no settings file, an empty log
    and an idle transport. *)
Definition example_world (table : gmap string (gmap string value)) : Main.World :=
  Main.mkWorld table example_rng Main.NoFile None [] [].

(** The same world with a settings file that does not hold JSON. *)
Definition example_malformed_world (msg : string) : Main.World :=
  Main.with_settings_file (Main.Malformed msg) (example_world ∅).

(** ** Vocabulary of the statements *)

(** The two length buttons. *)
Inductive length_press := Increment | Decrement.

Definition callback_of (press : length_press) : string :=
  match press with
  | Increment => Main.LEN_INCR
  | Decrement => Main.LEN_DECR
  end.

(** The failures of a load other than a missing file: the file cannot be
    opened, cannot be decoded, or its contents make the JSON decoder
    raise. *)
Definition load_fails (w : Main.World) : Prop :=
  Main.settings_file w = Main.Unreadable \/
  Main.settings_file w = Main.Undecodable \/
  (exists msg, Main.settings_file w = Main.Malformed msg) \/
  (exists e, Main.settings_file w = Main.DecoderRaises e).

(** C5 as the specification words it: every such failure is logged and
    answered with the empty table. *)
Definition load_failure_claim : Prop :=
  forall w, load_fails w ->
    exists w', Main.load_user_settings w = (Ok ∅, w') /\
      exists entry, Main.log w' = Main.log w ++ [(Main.ERROR, entry)].

(** One enabled class, or none. *)
Definition pick (on : bool) (chars : list ascii) : list (list ascii) :=
  if on then [chars] else [].

(** After the four class blocks the pool is the concatenation of the
    enabled classes and the guaranteed characters are one per enabled
    class, in the same order. *)
Definition seeded (classes : list (list ascii)) (acc : list ascii * list ascii) : Prop :=
  acc.1 = concat classes /\ Forall2 (fun c chars => c ∈ chars) acc.2 classes.

(** The part of [Main.generate_password] that follows the four class
    blocks, as a function of the pool and the guaranteed characters. *)
Definition main_finish (length_ : value) (acc : list ascii * list ascii) : M Rng string :=
  if bool_decide (acc.1 = []) then mret Main.NO_CLASS_MESSAGE
  else
    match as_int length_ with
    | None => raise TypeError
    | Some n =>
        if n <? Z.of_nat (length acc.2) then
          shuffled ← shuffle acc.2;
          mret (join (slice_to shuffled n))
        else
          fill ← choices (Z.to_nat (n - Z.of_nat (length acc.2))) acc.1;
          password_list ← shuffle (acc.2 ++ fill);
          mret (join password_list)
    end.

(** The same for [TelegramPasswordBot.generate_password]. *)
Definition telegram_finish (length_ : value) (acc : list ascii * list ascii) : M Rng string :=
  if bool_decide (acc.1 = []) then mret TelegramPasswordBot.NO_CLASS_MESSAGE
  else
    match as_int length_ with
    | None => raise TypeError
    | Some n =>
        fill ← choices (Z.to_nat (n - Z.of_nat (length acc.2))) acc.1;
        password_list ← shuffle (acc.2 ++ fill);
        mret (join password_list)
    end.

(** The transition a button press makes on the pressing user's config. *)
Definition config_step (action : string) (config : gmap string value)
  : gmap string value :=
  let bump (f : Z -> Z) :=
    match config !! "length" ≫= as_int with
    | Some n => <["length" := VInt (f n)]> config
    | None => config
    end in
  let flip (key : string) :=
    match config !! key with
    | Some v => <[key := VBool (negb (truthy v))]> config
    | None => config
    end in
  if String.eqb action Main.LEN_INCR then bump (fun n => Z.min 64 (n + 1))
  else if String.eqb action Main.LEN_DECR then bump (fun n => Z.max 4 (n - 1))
  else if String.eqb action Main.TOGGLE_UPPER then flip "use_upper"
  else if String.eqb action Main.TOGGLE_LOWER then flip "use_lower"
  else if String.eqb action Main.TOGGLE_DIGITS then flip "use_digits"
  else if String.eqb action Main.TOGGLE_SYMBOLS then flip "use_symbols"
  else config.

(** C2 as the specification words it: for a requested length below the
    number of enabled classes the result is a shuffled truncation of the
    guaranteed characters and is shorter than the requested length. *)
Definition short_length_claim : Prop :=
  forall settings v n g,
    settings !! "length" = Some v -> as_int v = Some n ->
    (1 <= enabled_count settings)%nat ->
    n < Z.of_nat (enabled_count settings) ->
    exists guaranteed shuffled pw g',
      Main.generate_password settings g = (Ok pw, g') /\
      Forall2 (fun c chars => c ∈ chars) guaranteed (enabled_classes Main.symbols settings) /\
      shuffled ≡ₚ guaranteed /\
      pw = join (slice_to shuffled n) /\
      Z.of_nat (String.length pw) < n.

(** The class toggles: the callback data of each and the flag it flips. *)
Definition toggle_buttons : list (string * string) :=
  [ (Main.TOGGLE_UPPER, "use_upper"); (Main.TOGGLE_LOWER, "use_lower");
    (Main.TOGGLE_DIGITS, "use_digits"); (Main.TOGGLE_SYMBOLS, "use_symbols") ].

(** The actions [Main.button_callback] acts on, and the callback data the
    menu carries (the length label is a button too). *)
Definition known_actions : list string :=
  [ Main.LEN_INCR; Main.LEN_DECR; Main.TOGGLE_UPPER; Main.TOGGLE_LOWER;
    Main.TOGGLE_DIGITS; Main.TOGGLE_SYMBOLS; Main.GENERATE ].

Definition menu_callbacks : list string := Main.LEN_INFO :: known_actions.

(** A config that holds the five keys, the length being a number. *)
Definition complete (config : gmap string value) : Prop :=
  (exists v n, config !! "length" = Some v /\ as_int v = Some n) /\
  forall flag, flag ∈ class_flags -> is_Some (config !! flag).

(** The [if]/[elif] chain of [Main.button_callback], from the config the
    handler fetched to the pair [(needs_update, message)]. *)
Definition action_phase (action : string) (user_id chat_id : Z)
    (config : gmap string value) : M Main.World (bool * string) :=
  let user_id_str := pretty user_id in
  if String.eqb action Main.LEN_INCR then
    n ← Main.length_plus config 1;
    Main.setitem user_id_str "length" (VInt (Z.min 64 n));;
    mret (true, Main.SETTINGS_CHANGED)
  else if String.eqb action Main.LEN_DECR then
    n ← Main.length_plus config (-1);
    Main.setitem user_id_str "length" (VInt (Z.max 4 n));;
    mret (true, Main.SETTINGS_CHANGED)
  else if String.eqb action Main.TOGGLE_UPPER then
    Main.toggle user_id_str "use_upper" config;; mret (true, Main.SETTINGS_CHANGED)
  else if String.eqb action Main.TOGGLE_LOWER then
    Main.toggle user_id_str "use_lower" config;; mret (true, Main.SETTINGS_CHANGED)
  else if String.eqb action Main.TOGGLE_DIGITS then
    Main.toggle user_id_str "use_digits" config;; mret (true, Main.SETTINGS_CHANGED)
  else if String.eqb action Main.TOGGLE_SYMBOLS then
    Main.toggle user_id_str "use_symbols" config;; mret (true, Main.SETTINGS_CHANGED)
  else if String.eqb action Main.GENERATE then
    password ← Main.with_random (Main.generate_password config);
    Main.emit (Main.SendMessage chat_id (Main.password_message password));;
    mret (true, Main.NEXT_PASSWORD)
  else mret (false, Main.SETTINGS_CHANGED).

(** The end of [Main.button_callback] when [needs_update] holds: write the
    table to the file and redraw the menu. *)
Definition refresh (user_id : Z) (message : string) : M Main.World unit :=
  table ← gets Main.user_settings;
  Main.save_user_settings table;;
  Main.build_menu user_id true message.

(** * Properties *)

(** ** The random primitives never fail on the inputs the bot gives them *)

Section RandomFacts.
Context {A : Type}.
Implicit Types (x seq : list A) (g : Rng).

Lemma randbelow_lt n g : (0 < n)%nat -> ((randbelow n g).1 < n)%nat.
Proof. intros Hn. simpl. apply Nat.mod_upper_bound. lia. Qed.

Lemma choice_ok seq g :
  seq <> [] -> exists c g', choice seq g = (Ok c, g') /\ c ∈ seq.
Proof.
  intros Hne. destruct seq as [|a seq']; [done|].
  unfold choice.
  pose proof (randbelow_lt (length (a :: seq')) g ltac:(simpl; lia)) as Hj.
  destruct (randbelow _ g) as [j g']. cbn [fst] in Hj.
  destruct (lookup_lt_is_Some_2 _ _ Hj) as [c Hc]. rewrite Hc.
  exists c, g'. split; [done|]. by eapply list_elem_of_lookup_2.
Qed.

Lemma choices_ok n seq g :
  seq <> [] ->
  exists cs g', choices n seq g = (Ok cs, g') /\ length cs = n /\ Forall (fun c => c ∈ seq) cs.
Proof.
  intros Hne. revert g. induction n as [|n IH]; intros g.
  - exists [], g. by repeat split.
  - destruct (choice_ok seq g Hne) as (c & g1 & Hc & Hin).
    destruct (IH g1) as (cs & g2 & Hcs & Hlen & Hall).
    exists (c :: cs), g2. simpl. unfold mbind, M_bind. rewrite Hc, Hcs.
    repeat split; [simpl; lia | by constructor].
Qed.

Lemma swap_ok x i j :
  (i < length x)%nat -> (j < length x)%nat ->
  exists x', swap x i j = Ok x' /\ x' ≡ₚ x.
Proof.
  intros Hi Hj. unfold swap.
  destruct (lookup_lt_is_Some_2 _ _ Hi) as [xi Hxi].
  destruct (lookup_lt_is_Some_2 _ _ Hj) as [xj Hxj].
  rewrite Hxi, Hxj. eexists. split; [done|].
  by apply Permutation_insert_swap.
Qed.

Lemma shuffle_from_ok k x g :
  (k < length x)%nat ->
  exists x' g', shuffle_from k x g = (Ok x', g') /\ x' ≡ₚ x.
Proof.
  revert x g. induction k as [|k IH]; intros x g Hk.
  - by exists x, g.
  - cbn [shuffle_from].
    pose proof (randbelow_lt (S (S k)) g ltac:(lia)) as Hj.
    destruct (randbelow (S (S k)) g) as [j g1]. cbn [fst] in Hj.
    destruct (swap_ok x (S k) j) as (x1 & Hsw & Hp1); [lia..|].
    rewrite Hsw.
    destruct (IH x1 g1) as (x2 & g2 & Hsh & Hp2).
    { rewrite (Permutation_length Hp1). lia. }
    exists x2, g2. split; [done|]. by rewrite Hp2.
Qed.

Lemma shuffle_ok x g :
  exists x' g', shuffle x g = (Ok x', g') /\ x' ≡ₚ x.
Proof.
  unfold shuffle. destruct x as [|a x].
  - by exists [], g.
  - apply shuffle_from_ok. simpl. lia.
Qed.

Lemma length_slice_to x (stop : Z) :
  Z.of_nat (length (slice_to x stop)) =
  if stop <? 0 then Z.max 0 (Z.min (Z.of_nat (length x)) (Z.of_nat (length x) + stop))
  else Z.min stop (Z.of_nat (length x)).
Proof.
  unfold slice_to. destruct (Z.ltb_spec stop 0); rewrite length_take; lia.
Qed.

Lemma slice_to_sublist x (stop : Z) : slice_to x stop `sublist_of` x.
Proof. unfold slice_to. destruct (stop <? 0); apply sublist_take. Qed.

End RandomFacts.

Lemma length_join cs : String.length (join cs) = length cs.
Proof. induction cs as [|c cs IH]; simpl; [done | by rewrite IH]. Qed.

Lemma chars_join cs : list_ascii_of_string (join cs) = cs.
Proof. apply list_ascii_of_string_of_list_ascii. Qed.

(** ** The class flags and the seeding phase *)

Lemma bind_Ok {S A B} (m : M S A) (k : A -> M S B) s a s' :
  m s = (Ok a, s') -> (m ≫= k) s = k a s'.
Proof. intros H. unfold mbind, M_bind. by rewrite H. Qed.

Lemma bind_Raise {S A B} (m : M S A) (k : A -> M S B) s e s' :
  m s = (Raise e, s') -> (m ≫= k) s = (Raise e, s').
Proof. intros H. unfold mbind, M_bind. by rewrite H. Qed.

Section ClassFacts.
Variable symbols : list ascii.
Hypothesis symbols_nonempty : symbols <> [].
Implicit Types (settings : gmap string value) (acc : list ascii * list ascii).


Lemma enabled_classes_eq settings :
  enabled_classes symbols settings =
    pick (enabled settings "use_lower") ascii_lowercase ++
    pick (enabled settings "use_upper") ascii_uppercase ++
    pick (enabled settings "use_digits") digits ++
    pick (enabled settings "use_symbols") symbols.
Proof.
  unfold enabled_classes, class_table.
  rewrite !filter_cons, filter_nil. cbn [fst].
  destruct (enabled settings "use_lower"), (enabled settings "use_upper"),
    (enabled settings "use_digits"), (enabled settings "use_symbols");
    reflexivity.
Qed.

Lemma elem_of_enabled_classes settings chars :
  chars ∈ enabled_classes symbols settings <->
  exists flag, (flag, chars) ∈ class_table symbols /\ enabled settings flag = true.
Proof.
  unfold enabled_classes. rewrite list_elem_of_fmap. split.
  - intros ([flag chars'] & -> & [Hen Hin]%list_elem_of_filter). by exists flag.
  - intros (flag & Hin & Hen). exists (flag, chars). split; [done|].
    by apply list_elem_of_filter.
Qed.

Lemma class_table_nonempty flag chars :
  (flag, chars) ∈ class_table symbols -> chars <> [].
Proof.
  unfold class_table. rewrite !elem_of_cons, elem_of_nil.
  intros [H|[H|[H|[H|[]]]]]; inversion H; subst; done.
Qed.

Lemma enabled_classes_nonempty settings chars :
  chars ∈ enabled_classes symbols settings -> chars <> [].
Proof.
  intros (flag & Hin & _)%elem_of_enabled_classes.
  by eapply class_table_nonempty.
Qed.

Lemma length_enabled_classes settings :
  length (enabled_classes symbols settings) = enabled_count settings.
Proof.
  unfold enabled_count, enabled_classes, class_table, class_flags.
  rewrite !length_fmap, !filter_cons, !filter_nil. cbn [fst].
  by repeat case_decide.
Qed.

End ClassFacts.


Lemma seeded_nil : seeded [] ([], []).
Proof. split; [done | constructor]. Qed.

Lemma seeded_snoc classes acc chars c :
  seeded classes acc -> c ∈ chars ->
  seeded (classes ++ [chars]) (acc.1 ++ chars, acc.2 ++ [c]).
Proof.
  intros [Hpool Hg] Hc. split; simpl.
  - rewrite Hpool, concat_app. simpl. by rewrite app_nil_r.
  - apply Forall2_app; [done|]. by repeat constructor.
Qed.

Lemma seeded_length classes acc :
  seeded classes acc -> length acc.2 = length classes.
Proof. intros [_ Hg]. by eapply Forall2_length. Qed.

Lemma seeded_pool_nonempty classes acc :
  seeded classes acc -> classes <> [] ->
  (forall chars, chars ∈ classes -> chars <> []) -> acc.1 <> [].
Proof.
  intros [-> _] Hne Hall. destruct classes as [|chars classes]; [done|].
  simpl. specialize (Hall chars ltac:(left)).
  destruct chars; [done | discriminate].
Qed.

Lemma seeded_guaranteed_in_class classes acc c :
  seeded classes acc -> c ∈ acc.2 -> exists chars, chars ∈ classes /\ c ∈ chars.
Proof.
  intros [_ Hg] Hc.
  destruct (proj1 (list_elem_of_lookup _ _) Hc) as [i Hi].
  destruct (Forall2_lookup_l _ _ _ _ _ Hg Hi) as (chars & Hchars & Hin).
  exists chars. split; [by eapply list_elem_of_lookup_2 | done].
Qed.

Lemma seeded_pool_in_class classes acc c :
  seeded classes acc -> c ∈ acc.1 -> exists chars, chars ∈ classes /\ c ∈ chars.
Proof.
  intros [-> _] Hc. apply list_elem_of_In, in_concat in Hc as (chars & ? & ?).
  exists chars. by rewrite !list_elem_of_In.
Qed.

Lemma seeded_class_has_guaranteed classes acc chars :
  seeded classes acc -> chars ∈ classes -> exists c, c ∈ acc.2 /\ c ∈ chars.
Proof.
  intros [_ Hg] Hc.
  destruct (proj1 (list_elem_of_lookup _ _) Hc) as [i Hi].
  destruct (Forall2_lookup_r _ _ _ _ _ Hg Hi) as (c & Hcl & Hin).
  exists c. split; [by eapply list_elem_of_lookup_2 | done].
Qed.

Module MainFacts.
Import Main.

Lemma symbols_nonempty : symbols <> [].
Proof. done. Qed.

Lemma use_class_spec settings flag chars classes acc g :
  chars <> [] -> seeded classes acc ->
  exists acc' g', use_class settings flag chars acc g = (Ok acc', g') /\
    seeded (classes ++ pick (enabled settings flag) chars) acc'.
Proof.
  intros Hne Hs. unfold use_class, enabled.
  destruct (truthy _); simpl.
  - destruct (choice_ok chars g Hne) as (c & g' & Hc & Hin).
    eexists _, g'. rewrite (bind_Ok _ _ _ _ _ Hc). split; [done|].
    by apply seeded_snoc.
  - exists acc, g. by rewrite app_nil_r.
Qed.


Lemma generate_password_eq settings v g :
  settings !! "length" = Some v ->
  exists acc g1, seeded (enabled_classes symbols settings) acc /\
    generate_password settings g = main_finish v acc g1.
Proof.
  intros Hlen. rewrite enabled_classes_eq.
  destruct (use_class_spec settings "use_lower" ascii_lowercase [] ([], []) g)
    as (a1 & g1 & E1 & S1); [done | apply seeded_nil |].
  edestruct (use_class_spec settings "use_upper" ascii_uppercase)
    as (a2 & g2 & E2 & S2); [done | exact S1 |].
  edestruct (use_class_spec settings "use_digits" digits)
    as (a3 & g3 & E3 & S3); [done | exact S2 |].
  edestruct (use_class_spec settings "use_symbols" symbols)
    as (a4 & g4 & E4 & S4); [done | exact S3 |].
  exists a4, g4. split.
  { revert S4. by rewrite <- !app_assoc. }
  unfold generate_password.
  rewrite (bind_Ok _ _ g v g) by (unfold of_result, getitem; by rewrite Hlen).
  rewrite (bind_Ok _ _ _ _ _ E1), (bind_Ok _ _ _ _ _ E2),
    (bind_Ok _ _ _ _ _ E3), (bind_Ok _ _ _ _ _ E4).
  reflexivity.
Qed.

End MainFacts.

Module MainGenerator.
Import Main MainFacts.

Lemma finish_none v acc g :
  acc.1 = [] -> main_finish v acc g = (Ok NO_CLASS_MESSAGE, g).
Proof. intros H. unfold main_finish. by rewrite bool_decide_eq_true_2. Qed.

Lemma finish_long classes acc v n g :
  seeded classes acc -> acc.1 <> [] -> as_int v = Some n ->
  Z.of_nat (length classes) <= n ->
  exists fill password_list g',
    main_finish v acc g = (Ok (join password_list), g') /\
    password_list ≡ₚ acc.2 ++ fill /\
    length fill = Z.to_nat (n - Z.of_nat (length classes)) /\
    Forall (fun c => c ∈ acc.1) fill.
Proof.
  intros Hs Hpool Hv Hn. unfold main_finish.
  rewrite bool_decide_eq_false_2 by done. rewrite Hv.
  rewrite (seeded_length _ _ Hs).
  destruct (Z.ltb_spec n (Z.of_nat (length classes))) as [?|_]; [lia|].
  destruct (choices_ok (Z.to_nat (n - Z.of_nat (length classes))) acc.1 g Hpool)
    as (fill & g1 & Hfill & Hlen & Hall).
  destruct (shuffle_ok (acc.2 ++ fill) g1) as (pl & g2 & Hsh & Hperm).
  exists fill, pl, g2.
  rewrite (bind_Ok _ _ _ _ _ Hfill), (bind_Ok _ _ _ _ _ Hsh).
  by repeat split.
Qed.

Lemma finish_short classes acc v n g :
  seeded classes acc -> acc.1 <> [] -> as_int v = Some n ->
  n < Z.of_nat (length classes) ->
  exists shuffled g',
    main_finish v acc g = (Ok (join (slice_to shuffled n)), g') /\
    shuffled ≡ₚ acc.2.
Proof.
  intros Hs Hpool Hv Hn. unfold main_finish.
  rewrite bool_decide_eq_false_2 by done. rewrite Hv.
  rewrite (seeded_length _ _ Hs).
  destruct (Z.ltb_spec n (Z.of_nat (length classes))) as [_|?]; [|lia].
  destruct (shuffle_ok acc.2 g) as (sh & g1 & Hsh & Hperm).
  exists sh, g1. by rewrite (bind_Ok _ _ _ _ _ Hsh).
Qed.

Lemma pool_nonempty settings acc :
  seeded (enabled_classes symbols settings) acc ->
  (1 <= enabled_count settings)%nat -> acc.1 <> [].
Proof.
  intros Hs Hc. eapply seeded_pool_nonempty; [exact Hs | |].
  - intros E. apply (f_equal length) in E.
    rewrite length_enabled_classes in E. simpl in E. lia.
  - intros chars. by apply enabled_classes_nonempty.
Qed.

(** C1.  With at least one class enabled and a requested length no smaller
    than the number of enabled classes, [generate_password] returns a
    password of exactly the requested length that contains a character of
    every enabled class. *)
Theorem generate_password_exact_length_every_class settings v n g :
  settings !! "length" = Some v -> as_int v = Some n ->
  (1 <= enabled_count settings)%nat ->
  Z.of_nat (enabled_count settings) <= n ->
  exists pw g',
    generate_password settings g = (Ok pw, g') /\
    Z.of_nat (String.length pw) = n /\
    forall flag chars,
      (flag, chars) ∈ class_table symbols -> enabled settings flag = true ->
      exists c, c ∈ list_ascii_of_string pw /\ c ∈ chars.
Proof.
  intros Hlen Hv Hone Hn.
  destruct (generate_password_eq settings v g Hlen) as (acc & g1 & Hs & ->).
  pose proof (pool_nonempty _ _ Hs Hone) as Hpool.
  destruct (finish_long _ acc v n g1 Hs Hpool Hv) as (fill & pl & g2 & -> & Hperm & Hfill & _).
  { by rewrite length_enabled_classes. }
  exists (join pl), g2. split; [done|]. split.
  - rewrite length_join, (Permutation_length Hperm), length_app, Hfill.
    rewrite (seeded_length _ _ Hs), length_enabled_classes. lia.
  - intros flag chars Hin Hen.
    destruct (seeded_class_has_guaranteed _ _ chars Hs) as (c & Hc & Hcc).
    { apply elem_of_enabled_classes. by exists flag. }
    exists c. split; [|done].
    rewrite chars_join, Hperm. apply elem_of_app. by left.
Qed.

(** One run: four classes, requested length 8. *)
Example generate_password_length_8 :
  (generate_password (example_settings 8 true true true true) example_rng).1
    = Ok "1&5Cb;&F".
Proof. vm_compute. reflexivity. Qed.

Lemma exact_length_every_class_witness :
  exists pw g',
    generate_password (example_settings 8 true true false true) example_rng
      = (Ok pw, g') /\
    Z.of_nat (String.length pw) = 8 /\
    forall flag chars,
      (flag, chars) ∈ class_table symbols ->
      enabled (example_settings 8 true true false true) flag = true ->
      exists c, c ∈ list_ascii_of_string pw /\ c ∈ chars.
Proof.
  apply (generate_password_exact_length_every_class _ (VInt 8) 8).
  - vm_compute. reflexivity.
  - reflexivity.
  - vm_compute. lia.
  - vm_compute. discriminate.
Defined.

(** C4.  With all four classes disabled, [generate_password] returns the
    fixed message, draws nothing from the random source and raises
    nothing. *)
Theorem generate_password_no_class settings v g :
  settings !! "length" = Some v ->
  enabled settings "use_lower" = false ->
  enabled settings "use_upper" = false ->
  enabled settings "use_digits" = false ->
  enabled settings "use_symbols" = false ->
  generate_password settings g = (Ok NO_CLASS_MESSAGE, g).
Proof.
  unfold enabled. intros Hlen Hl Hu Hd Hs.
  unfold generate_password, use_class.
  rewrite (bind_Ok _ _ g v g) by (unfold of_result, getitem; by rewrite Hlen).
  by rewrite Hl, Hu, Hd, Hs.
Qed.

Lemma no_class_witness :
  generate_password (example_settings 12 false false false false) example_rng
    = (Ok NO_CLASS_MESSAGE, example_rng).
Proof.
  apply (generate_password_no_class _ (VInt 12)); vm_compute; reflexivity.
Defined.

(** C8.  With at least one class enabled, [generate_password] returns a
    password all of whose characters belong to an enabled class. *)
Theorem generate_password_chars_from_enabled_classes settings v n g :
  settings !! "length" = Some v -> as_int v = Some n ->
  (1 <= enabled_count settings)%nat ->
  exists pw g',
    generate_password settings g = (Ok pw, g') /\
    forall c, c ∈ list_ascii_of_string pw ->
      exists flag chars,
        (flag, chars) ∈ class_table symbols /\ enabled settings flag = true /\
        c ∈ chars.
Proof.
  intros Hlen Hv Hone.
  destruct (generate_password_eq settings v g Hlen) as (acc & g1 & Hs & ->).
  pose proof (pool_nonempty _ _ Hs Hone) as Hpool.
  assert (Hcls : forall c, c ∈ acc.2 \/ c ∈ acc.1 ->
    exists flag chars, (flag, chars) ∈ class_table symbols /\
      enabled settings flag = true /\ c ∈ chars).
  { intros c [Hc|Hc].
    - destruct (seeded_guaranteed_in_class _ _ c Hs Hc) as (chars & Hin & Hcc).
      apply elem_of_enabled_classes in Hin as (flag & ? & ?). by exists flag, chars.
    - destruct (seeded_pool_in_class _ _ c Hs Hc) as (chars & Hin & Hcc).
      apply elem_of_enabled_classes in Hin as (flag & ? & ?). by exists flag, chars. }
  destruct (Z_lt_le_dec n (Z.of_nat (enabled_count settings))) as [Hshort|Hlong].
  - destruct (finish_short _ acc v n g1 Hs Hpool Hv) as (sh & g2 & -> & Hperm).
    { by rewrite length_enabled_classes. }
    eexists _, g2. split; [done|]. intros c. rewrite chars_join. intros Hc.
    apply Hcls. left. rewrite <- Hperm.
    eapply elem_of_sublist; [exact Hc | apply slice_to_sublist].
  - destruct (finish_long _ acc v n g1 Hs Hpool Hv) as (fill & pl & g2 & -> & Hperm & _ & Hall).
    { by rewrite length_enabled_classes. }
    eexists _, g2. split; [done|]. intros c. rewrite chars_join, Hperm.
    intros [Hc|Hc]%elem_of_app; apply Hcls; [by left|right].
    by eapply (proj1 (Forall_forall _ _) Hall).
Qed.

Lemma chars_from_enabled_classes_witness :
  exists pw g',
    generate_password (example_settings 6 false true true false) example_rng
      = (Ok pw, g') /\
    forall c, c ∈ list_ascii_of_string pw ->
      exists flag chars,
        (flag, chars) ∈ class_table symbols /\
        enabled (example_settings 6 false true true false) flag = true /\
        c ∈ chars.
Proof.
  apply (generate_password_chars_from_enabled_classes _ (VInt 6) 6).
  - vm_compute. reflexivity.
  - reflexivity.
  - vm_compute. lia.
Defined.


(** The run behind the counterexample: four classes, requested length 2. *)
Example generate_password_length_2 :
  (generate_password (example_settings 2 true true true true) example_rng).1 = Ok "5&".
Proof. vm_compute. reflexivity. Qed.

(** C2, counterexample.  With all four classes enabled and requested length
    2 the result has two characters, which is not fewer than 2. *)
Lemma short_length_claim_fails : ~ short_length_claim.
Proof.
  intros H.
  destruct (H (example_settings 2 true true true true) (VInt 2) 2 example_rng)
    as (gs & sh & pw & g' & Hgen & _ & _ & _ & Hlt).
  - reflexivity.
  - reflexivity.
  - vm_compute. lia.
  - vm_compute. reflexivity.
  - apply (f_equal fst) in Hgen. vm_compute in Hgen.
    injection Hgen as <-. vm_compute in Hlt. discriminate.
Qed.

(** C2, amended.  For a requested length below the number of enabled
    classes the result is the slice [[:length]] of a permutation of the
    one-per-class guaranteed characters; it has exactly the requested
    number of characters when that is not negative (and the slice rule of
    a negative bound otherwise), hence fewer than there are enabled
    classes. *)
Theorem short_length_gives_truncated_shuffle settings v n g :
  settings !! "length" = Some v -> as_int v = Some n ->
  (1 <= enabled_count settings)%nat ->
  n < Z.of_nat (enabled_count settings) ->
  exists guaranteed shuffled pw g',
    generate_password settings g = (Ok pw, g') /\
    Forall2 (fun c chars => c ∈ chars) guaranteed (enabled_classes symbols settings) /\
    shuffled ≡ₚ guaranteed /\
    pw = join (slice_to shuffled n) /\
    Z.of_nat (String.length pw) =
      (if n <? 0 then Z.max 0 (Z.of_nat (enabled_count settings) + n) else n) /\
    (String.length pw < enabled_count settings)%nat.
Proof.
  intros Hlen Hv Hone Hn.
  destruct (generate_password_eq settings v g Hlen) as (acc & g1 & Hs & ->).
  pose proof (pool_nonempty _ _ Hs Hone) as Hpool.
  destruct (finish_short _ acc v n g1 Hs Hpool Hv) as (sh & g2 & -> & Hperm).
  { by rewrite length_enabled_classes. }
  exists acc.2, sh, (join (slice_to sh n)), g2.
  assert (Hsh : length sh = enabled_count settings).
  { by rewrite (Permutation_length Hperm), (seeded_length _ _ Hs),
      length_enabled_classes. }
  pose proof (length_slice_to sh n) as Hsl. rewrite Hsh in Hsl.
  repeat split; [apply Hs | done | |]; rewrite length_join.
  - rewrite Hsl. destruct (Z.ltb_spec n 0); lia.
  - destruct (Z.ltb_spec n 0); lia.
Qed.

Lemma truncated_shuffle_witness :
  exists guaranteed shuffled pw g',
    generate_password (example_settings 2 true true true true) example_rng
      = (Ok pw, g') /\
    Forall2 (fun c chars => c ∈ chars) guaranteed
      (enabled_classes symbols (example_settings 2 true true true true)) /\
    shuffled ≡ₚ guaranteed /\
    pw = join (slice_to shuffled 2) /\
    Z.of_nat (String.length pw) =
      (if 2 <? 0
       then Z.max 0 (Z.of_nat (enabled_count (example_settings 2 true true true true)) + 2)
       else 2) /\
    (String.length pw < enabled_count (example_settings 2 true true true true))%nat.
Proof.
  apply (short_length_gives_truncated_shuffle _ (VInt 2) 2).
  - vm_compute. reflexivity.
  - reflexivity.
  - vm_compute. lia.
  - vm_compute. reflexivity.
Defined.

Lemma generate_password_ext settings settings' :
  settings' !! "length" = settings !! "length" ->
  (forall k, get settings' k (VBool false) = get settings k (VBool false)) ->
  generate_password settings' = generate_password settings.
Proof.
  intros Hlen Hget. unfold generate_password, use_class, getitem.
  by rewrite Hlen, !Hget.
Qed.

Lemma generate_password_total settings v n g :
  settings !! "length" = Some v -> as_int v = Some n ->
  exists pw g', generate_password settings g = (Ok pw, g').
Proof.
  intros Hlen Hv.
  destruct (generate_password_eq settings v g Hlen) as (acc & g1 & Hs & ->).
  destruct (decide (acc.1 = [])) as [Hnil|Hpool].
  { exists NO_CLASS_MESSAGE, g1. by apply finish_none. }
  destruct (Z_lt_le_dec n (Z.of_nat (length (enabled_classes symbols settings)))).
  - destruct (finish_short _ acc v n g1 Hs Hpool Hv) as (sh & g2 & -> & _); eauto.
  - destruct (finish_long _ acc v n g1 Hs Hpool Hv) as (? & pl & g2 & -> & _); eauto.
Qed.

(** C9.  A settings dict that lacks a class flag is handled like one in
    which the flag is [False]: the class is disabled, the call returns a
    string (no [KeyError]) and the result is the one obtained with the
    flag stored as [False]. *)
Theorem generate_password_missing_flag settings v n flag g :
  settings !! "length" = Some v -> as_int v = Some n ->
  flag ∈ class_flags ->
  settings !! flag = None ->
  enabled settings flag = false /\
  (exists pw g', generate_password settings g = (Ok pw, g')) /\
  generate_password settings g =
    generate_password (<[flag := VBool false]> settings) g.
Proof.
  intros Hlen Hv Hflag Hmiss. split; [|split].
  - unfold enabled, get. by rewrite Hmiss.
  - by eapply generate_password_total.
  - rewrite (generate_password_ext settings (<[flag := VBool false]> settings)); [done| |].
    + apply lookup_insert_ne. intros ->. congruence.
    + intros k. unfold get. destruct (decide (flag = k)) as [->|Hne].
      * by rewrite lookup_insert_eq, Hmiss.
      * by rewrite lookup_insert_ne.
Qed.

Lemma missing_flag_witness :
  enabled (delete "use_upper" (example_settings 8 true true true true))
    "use_upper" = false /\
  (exists pw g',
     generate_password
       (delete "use_upper" (example_settings 8 true true true true))
       example_rng = (Ok pw, g')) /\
  generate_password
    (delete "use_upper" (example_settings 8 true true true true)) example_rng =
  generate_password
    (<["use_upper" := VBool false]>
       (delete "use_upper" (example_settings 8 true true true true)))
    example_rng.
Proof.
  apply (generate_password_missing_flag _ (VInt 8) 8 "use_upper").
  - vm_compute. reflexivity.
  - reflexivity.
  - set_solver.
  - vm_compute. reflexivity.
Defined.

End MainGenerator.

(** ** [src/telegram_password_bot.py]: short lengths are not truncated *)

Module TelegramGenerator.
Import TelegramPasswordBot.


Lemma telegram_use_class_spec settings flag chars classes acc g :
  is_Some (settings !! flag) ->
  chars <> [] -> seeded classes acc ->
  exists acc' g', use_class settings flag chars acc g = (Ok acc', g') /\
    seeded (classes ++ pick (enabled settings flag) chars) acc'.
Proof.
  intros [on Hon] Hne Hs. unfold use_class, enabled, get.
  rewrite (bind_Ok _ _ g on g) by (unfold of_result, getitem; by rewrite Hon).
  rewrite Hon. destruct (truthy on); simpl.
  - destruct (choice_ok chars g Hne) as (c & g' & Hc & Hin).
    eexists _, g'. rewrite (bind_Ok _ _ _ _ _ Hc). split; [done|].
    by apply seeded_snoc.
  - exists acc, g. by rewrite app_nil_r.
Qed.

Lemma telegram_generate_password_eq settings v g :
  settings !! "length" = Some v ->
  (forall flag chars, (flag, chars) ∈ class_table symbols -> is_Some (settings !! flag)) ->
  exists acc g1, seeded (enabled_classes symbols settings) acc /\
    generate_password settings g = telegram_finish v acc g1.
Proof.
  intros Hlen Hflags. rewrite enabled_classes_eq.
  edestruct (telegram_use_class_spec settings "use_lower" ascii_lowercase [] ([], []) g)
    as (a1 & g1 & E1 & S1); [|done | apply seeded_nil |].
  { apply (Hflags _ ascii_lowercase). set_solver. }
  edestruct (telegram_use_class_spec settings "use_upper" ascii_uppercase)
    as (a2 & g2 & E2 & S2); [|done | exact S1 |].
  { apply (Hflags _ ascii_uppercase). set_solver. }
  edestruct (telegram_use_class_spec settings "use_digits" digits)
    as (a3 & g3 & E3 & S3); [|done | exact S2 |].
  { apply (Hflags _ digits). set_solver. }
  edestruct (telegram_use_class_spec settings "use_symbols" symbols)
    as (a4 & g4 & E4 & S4); [|done | exact S3 |].
  { apply (Hflags _ symbols). set_solver. }
  exists a4, g4. split.
  { revert S4. by rewrite <- !app_assoc. }
  unfold generate_password.
  rewrite (bind_Ok _ _ g v g) by (unfold of_result, getitem; by rewrite Hlen).
  rewrite (bind_Ok _ _ _ _ _ E1), (bind_Ok _ _ _ _ _ E2),
    (bind_Ok _ _ _ _ _ E3), (bind_Ok _ _ _ _ _ E4).
  reflexivity.
Qed.

(** C10.  In [telegram_password_bot.py], a requested length below the
    number of enabled classes yields exactly one character per enabled
    class: as many characters as there are enabled classes, which is more
    than requested. *)
Theorem telegram_short_length_not_truncated settings v n g :
  settings !! "length" = Some v -> as_int v = Some n ->
  (forall flag chars, (flag, chars) ∈ class_table symbols -> is_Some (settings !! flag)) ->
  (1 <= enabled_count settings)%nat ->
  n < Z.of_nat (enabled_count settings) ->
  exists guaranteed pw g',
    generate_password settings g = (Ok pw, g') /\
    Forall2 (fun c chars => c ∈ chars) guaranteed (enabled_classes symbols settings) /\
    list_ascii_of_string pw ≡ₚ guaranteed /\
    String.length pw = enabled_count settings /\
    n < Z.of_nat (String.length pw).
Proof.
  intros Hlen Hv Hflags Hone Hn.
  destruct (telegram_generate_password_eq settings v g Hlen Hflags) as (acc & g1 & Hs & ->).
  assert (Hpool : acc.1 <> []).
  { eapply seeded_pool_nonempty; [exact Hs | |].
    - intros E. apply (f_equal length) in E.
      rewrite length_enabled_classes in E. simpl in E. lia.
    - intros chars. by apply enabled_classes_nonempty. }
  pose proof (seeded_length _ _ Hs) as Hg. rewrite length_enabled_classes in Hg.
  unfold telegram_finish. rewrite bool_decide_eq_false_2 by done. rewrite Hv, Hg.
  replace (Z.to_nat (n - Z.of_nat (enabled_count settings))) with 0%nat by lia.
  cbn [choices]. rewrite (bind_Ok _ _ g1 [] g1) by done.
  rewrite app_nil_r.
  destruct (shuffle_ok acc.2 g1) as (pl & g2 & Hsh & Hperm).
  rewrite (bind_Ok _ _ _ _ _ Hsh).
  exists acc.2, (join pl), g2.
  assert (Hl : String.length (join pl) = enabled_count settings).
  { by rewrite length_join, (Permutation_length Hperm). }
  repeat split; [apply Hs | by rewrite chars_join | done | lia].
Qed.

Lemma telegram_short_length_witness :
  exists guaranteed pw g',
    generate_password (example_settings 2 true true true true) example_rng
      = (Ok pw, g') /\
    Forall2 (fun c chars => c ∈ chars) guaranteed
      (enabled_classes symbols (example_settings 2 true true true true)) /\
    list_ascii_of_string pw ≡ₚ guaranteed /\
    String.length pw = enabled_count (example_settings 2 true true true true) /\
    2 < Z.of_nat (String.length pw).
Proof.
  apply (telegram_short_length_not_truncated _ (VInt 2) 2).
  - vm_compute. reflexivity.
  - reflexivity.
  - intros flag chars Hin.
    assert (Hflag : flag ∈ class_flags).
    { apply (list_elem_of_fmap_2 fst) in Hin. exact Hin. }
    unfold class_flags in Hflag. rewrite !elem_of_cons, elem_of_nil in Hflag.
    destruct Hflag as [->|[->|[->|[->|[]]]]]; vm_compute; eauto.
  - vm_compute. lia.
  - vm_compute. reflexivity.
Defined.

(** The run of the earlier generator on the input used above: four
    characters for a requested length of 2. *)
Example telegram_generate_password_length_2 :
  (generate_password (example_settings 2 true true true true) example_rng).1
    = Ok "5^bF".
Proof. vm_compute. reflexivity. Qed.

End TelegramGenerator.

(** ** [src/main.py]: the settings store and the button state machine *)

Module MainStore.
Import Main.


Lemma get_user_config_present user_id w config :
  user_settings w !! pretty user_id = Some config ->
  get_user_config user_id w = (Ok config, w).
Proof.
  intros H. unfold get_user_config.
  rewrite bool_decide_eq_true_2 by (by rewrite H).
  unfold getitem_table. by rewrite H.
Qed.

Lemma get_user_config_absent user_id w :
  user_settings w !! pretty user_id = None ->
  get_user_config user_id w =
    (Ok get_default_settings,
     with_user_settings
       (<[pretty user_id := get_default_settings]> (user_settings w)) w).
Proof.
  intros H. unfold get_user_config.
  rewrite bool_decide_eq_false_2 by (rewrite H; by intros [? ?]).
  unfold getitem_table. cbn [user_settings with_user_settings].
  by rewrite lookup_insert_eq.
Qed.

Lemma save_user_settings_table table w :
  user_settings (save_user_settings table w).2 = user_settings w.
Proof. unfold save_user_settings. by destruct (write_error w). Qed.

Lemma build_menu_table user_id from_callback message_text w config :
  user_settings w !! pretty user_id = Some config ->
  user_settings (build_menu user_id from_callback message_text w).2 = user_settings w.
Proof.
  intros H. unfold build_menu.
  rewrite (bind_Ok _ _ _ _ _ (get_user_config_present _ _ _ H)).
  unfold mbind, M_bind, of_result, getitem.
  destruct (config !! "use_upper"); [|done].
  destruct (config !! "use_lower"); [|done].
  destruct (config !! "use_digits"); [|done].
  destruct (config !! "use_symbols"); [|done].
  destruct (config !! "length"); [|done].
  by destruct from_callback.
Qed.

(** What follows the action in [button_callback] when [needs_update] holds:
    save the table and redraw the menu. *)
Lemma refresh_table user_id message w config :
  user_settings w !! pretty user_id = Some config ->
  user_settings
    ((table ← gets user_settings; save_user_settings table;;
      build_menu user_id true message) w).2 = user_settings w.
Proof.
  intros H. rewrite (bind_Ok _ _ w (user_settings w) w) by done.
  unfold mbind at 1, M_bind at 1.
  pose proof (save_user_settings_table (user_settings w) w) as Hs.
  destruct (save_user_settings (user_settings w) w) as [[[]|e] w1];
    cbn [snd] in *; [|done].
  rewrite <- Hs. eapply build_menu_table. by rewrite Hs.
Qed.

Lemma alter_present (f : gmap string value -> gmap string value)
    (k : string) (t : gmap string (gmap string value)) config :
  t !! k = Some config -> alter f k t = <[k := f config]> t.
Proof.
  intros H. apply map_eq. intros j. destruct (decide (k = j)) as [<-|Hne].
  - by rewrite lookup_alter_eq, lookup_insert_eq, H.
  - by rewrite lookup_alter_ne, lookup_insert_ne.
Qed.

Lemma bump_table (user_id : Z) delta (f : Z -> Z) (message : string) w config :
  user_settings w !! pretty user_id = Some config ->
  user_settings
    ((n ← length_plus config delta;
      setitem (pretty user_id) "length" (VInt (f n));;
      mret (true, message)) w).2 =
  <[pretty user_id :=
      match config !! "length" ≫= as_int with
      | Some n => <["length" := VInt (f (n + delta))]> config
      | None => config
      end]> (user_settings w).
Proof.
  intros H. unfold length_plus, mbind, M_bind, of_result, getitem, setitem, modify.
  destruct (config !! "length") as [v|]; cbn [option_bind].
  - destruct (as_int v) as [n|]; cbn.
    + by apply alter_present.
    + by rewrite insert_id.
  - cbn. by rewrite insert_id.
Qed.

Lemma toggle_table (user_id : Z) key (message : string) w config :
  user_settings w !! pretty user_id = Some config ->
  user_settings
    ((toggle (pretty user_id) key config;; mret (true, message)) w).2 =
  <[pretty user_id :=
      match config !! key with
      | Some v => <[key := VBool (negb (truthy v))]> config
      | None => config
      end]> (user_settings w).
Proof.
  intros H. unfold toggle, mbind, M_bind, of_result, getitem, setitem, modify.
  destruct (config !! key) as [v|]; cbn.
  - by apply alter_present.
  - by rewrite insert_id.
Qed.

Lemma generate_table (user_id : Z) chat_id w config :
  user_settings w !! pretty user_id = Some config ->
  user_settings
    ((password ← with_random (generate_password config);
      emit (SendMessage chat_id (password_message password));;
      mret (true, NEXT_PASSWORD)) w).2 =
  <[pretty user_id := config]> (user_settings w).
Proof.
  intros H. rewrite insert_id by done.
  unfold mbind, M_bind, with_random, emit, modify.
  by destruct (generate_password config (rng w)) as [[pw|e] g'].
Qed.

(** [button_callback] refines [config_step]: a press replaces the pressing
    user's config by its [config_step] image and touches no other entry of
    the table, whether or not the handler raises. *)
Lemma button_callback_table action user_id chat_id w config :
  user_settings w !! pretty user_id = Some config ->
  user_settings (button_callback action user_id chat_id w).2 =
  <[pretty user_id := config_step action config]> (user_settings w).
Proof.
  intros H. unfold button_callback.
  rewrite (bind_Ok _ _ w () (with_outbox (outbox w ++ [Answer]) w)) by done.
  set (w1 := with_outbox _ w).
  assert (H1 : user_settings w1 !! pretty user_id = Some config) by done.
  change (user_settings w) with (user_settings w1).
  rewrite (bind_Ok _ _ _ _ _ (get_user_config_present _ _ _ H1)).
  match goal with
  | |- user_settings ((?m ≫= ?k) w1).2 = _ =>
      assert (Hm : user_settings (m w1).2 =
                   <[pretty user_id := config_step action config]> (user_settings w1));
      [| generalize Hm; generalize (config_step action config); intros c' Hm';
         unfold mbind at 1, M_bind at 1;
         destruct (m w1) as [[[needs_update message]|e] w2]; cbn [snd] in Hm';
         [| exact Hm'] ]
  end.
  - unfold config_step.
    destruct (String.eqb action LEN_INCR); [by apply bump_table|].
    destruct (String.eqb action LEN_DECR); [by apply (bump_table _ (-1))|].
    destruct (String.eqb action TOGGLE_UPPER); [by apply toggle_table|].
    destruct (String.eqb action TOGGLE_LOWER); [by apply toggle_table|].
    destruct (String.eqb action TOGGLE_DIGITS); [by apply toggle_table|].
    destruct (String.eqb action TOGGLE_SYMBOLS); [by apply toggle_table|].
    destruct (String.eqb action GENERATE); [by apply generate_table|].
    cbn. by rewrite insert_id.
  - destruct needs_update; [|exact Hm'].
    rewrite <- Hm'. eapply (refresh_table _ _ _ c').
    rewrite Hm'. apply lookup_insert_eq.
Qed.

Lemma button_callback_first_contact action user_id chat_id w :
  user_settings w !! pretty user_id = None ->
  button_callback action user_id chat_id w =
  button_callback action user_id chat_id
    (with_user_settings
       (<[pretty user_id := get_default_settings]> (user_settings w)) w).
Proof.
  intros H. unfold button_callback.
  rewrite (bind_Ok _ _ w () (with_outbox (outbox w ++ [Answer]) w)) by done.
  rewrite (bind_Ok _ _ (with_user_settings _ w) ()
             (with_outbox (outbox w ++ [Answer]) (with_user_settings
               (<[pretty user_id := get_default_settings]> (user_settings w)) w)))
    by done.
  rewrite (bind_Ok _ _ _ _ _
             (get_user_config_absent user_id (with_outbox _ w) H)).
  erewrite (bind_Ok _ _ (with_outbox _ (with_user_settings _ w)));
    [reflexivity|].
  apply get_user_config_present. cbn. apply lookup_insert_eq.
Qed.

Lemma config_step_length (press : length_press) config n0 :
  config !! "length" = Some (VInt n0) -> 4 <= n0 <= 64 ->
  exists n, config_step (callback_of press) config !! "length" = Some (VInt n) /\
            4 <= n <= 64.
Proof.
  intros Hl Hr. destruct press; unfold config_step; cbn; rewrite Hl; cbn;
    eexists; (split; [apply lookup_insert_eq | lia]).
Qed.

(** C3.  Starting from a config whose length is in [4,64], any finite
    sequence of increment and decrement presses leaves the length in
    [4,64]. *)
Theorem press_all_length_in_range (presses : list length_press)
    (user_id chat_id : Z) w config n0 :
  user_settings w !! pretty user_id = Some config ->
  config !! "length" = Some (VInt n0) -> 4 <= n0 <= 64 ->
  exists config' n,
    user_settings (press_all (callback_of <$> presses) user_id chat_id w)
      !! pretty user_id = Some config' /\
    config' !! "length" = Some (VInt n) /\ 4 <= n <= 64.
Proof.
  revert w config n0. induction presses as [|press presses IH];
    intros w config n0 Hc Hl Hr.
  - exists config, n0. auto.
  - cbn [fmap list_fmap press_all].
    destruct (config_step_length press config n0 Hl Hr) as (n1 & Hl1 & Hr1).
    eapply (IH _ (config_step (callback_of press) config) n1); [|done..].
    rewrite (button_callback_table _ _ _ _ _ Hc). apply lookup_insert_eq.
Qed.

Lemma length_in_range_witness :
  exists config' n,
    user_settings
      (press_all (callback_of <$> [Decrement; Increment; Increment]) 42 7
         (example_world {["42" := example_settings 64 true true true true]}))
      !! pretty 42 = Some config' /\
    config' !! "length" = Some (VInt n) /\ 4 <= n <= 64.
Proof.
  apply (press_all_length_in_range _ 42 7 _
           (example_settings 64 true true true true) 64).
  - vm_compute. reflexivity.
  - vm_compute. reflexivity.
  - lia.
Defined.

(** The same invariant over all buttons, and from first contact. *)
Lemma config_step_keeps_range action config n0 :
  config !! "length" = Some (VInt n0) -> 4 <= n0 <= 64 ->
  exists n, config_step action config !! "length" = Some (VInt n) /\
            4 <= n <= 64.
Proof.
  intros Hl Hr. unfold config_step. rewrite Hl. cbn [mbind option_bind as_int].
  assert (Hflip : forall key, key <> "length" ->
    exists n, match config !! key with
              | Some v => <[key := VBool (negb (truthy v))]> config
              | None => config
              end !! "length" = Some (VInt n) /\ 4 <= n <= 64).
  { intros key Hne. exists n0. split; [|done].
    destruct (config !! key); [by rewrite lookup_insert_ne|done]. }
  repeat (match goal with |- context [String.eqb action ?a] =>
            destruct (String.eqb action a) end;
          [first [ eexists; split; [apply lookup_insert_eq | lia]
                 | by apply Hflip ] |]).
  eauto.
Qed.

Lemma press_any_length_in_range (actions : list string)
    (user_id chat_id : Z) w config n0 :
  user_settings w !! pretty user_id = Some config ->
  config !! "length" = Some (VInt n0) -> 4 <= n0 <= 64 ->
  exists config' n,
    user_settings (press_all actions user_id chat_id w) !! pretty user_id
      = Some config' /\
    config' !! "length" = Some (VInt n) /\ 4 <= n <= 64.
Proof.
  revert w config n0. induction actions as [|action actions IH];
    intros w config n0 Hc Hl Hr; [by eauto|].
  destruct (config_step_keeps_range action config n0 Hl Hr) as (n1 & Hl1 & Hr1).
  cbn [press_all]. eapply (IH _ (config_step action config) n1); [|done..].
  rewrite (button_callback_table _ _ _ _ _ Hc). apply lookup_insert_eq.
Qed.

Lemma first_contact_length_in_range action (actions : list string)
    (user_id chat_id : Z) w :
  user_settings w !! pretty user_id = None ->
  exists config' n,
    user_settings (press_all (action :: actions) user_id chat_id w)
      !! pretty user_id = Some config' /\
    config' !! "length" = Some (VInt n) /\ 4 <= n <= 64.
Proof.
  intros H. cbn [press_all].
  rewrite (button_callback_first_contact _ _ _ _ H).
  change (exists config' n,
    user_settings (press_all (action :: actions) user_id chat_id
      (with_user_settings
         (<[pretty user_id := get_default_settings]> (user_settings w)) w))
      !! pretty user_id = Some config' /\
    config' !! "length" = Some (VInt n) /\ 4 <= n <= 64).
  eapply (press_any_length_in_range _ _ _ _ get_default_settings 16);
    [apply lookup_insert_eq | reflexivity | lia].
Qed.

(** Outside the data model the range is not restored: from length 100 a
    decrement gives 99. *)
Example decrement_from_100 :
  user_settings
    (press_all [LEN_DECR] 42 7
       (example_world {["42" := example_settings 100 true true true true]}))
    !! "42" = Some (example_settings 99 true true true true).
Proof. vm_compute. reflexivity. Qed.

(** C5, counterexample.  A settings file that exists and cannot be opened
    makes [load_user_settings] raise [OSError]: no table is returned and
    nothing is logged. *)
Lemma load_failure_claim_fails : ~ load_failure_claim.
Proof.
  intros H.
  destruct (H (with_settings_file Unreadable (example_world ∅)))
    as (w' & Hload & _).
  - by left.
  - discriminate Hload.
Qed.

Example load_user_settings_unreadable :
  (load_user_settings (with_settings_file Unreadable (example_world ∅))).1
    = Raise OSError /\
  (load_user_settings (with_settings_file Undecodable (example_world ∅))).1
    = Raise UnicodeDecodeError.
Proof. split; reflexivity. Qed.

(** Contents that are not JSON are not always answered with
    [JSONDecodeError]: what the decoder raises instead is not caught, and
    nothing is logged. *)
Lemma load_user_settings_other_decoder_exception e w :
  (forall msg, e <> JSONDecodeError msg) ->
  settings_file w = DecoderRaises e ->
  load_user_settings w = (Raise e, w).
Proof.
  intros He Hf. unfold load_user_settings. rewrite Hf.
  destruct e; try reflexivity. by destruct (He msg).
Qed.

Example load_user_settings_recursion_error :
  load_user_settings (with_settings_file (DecoderRaises RecursionError) (example_world ∅))
    = (Raise RecursionError,
       with_settings_file (DecoderRaises RecursionError) (example_world ∅)) /\
  load_user_settings (with_settings_file (DecoderRaises ValueError) (example_world ∅))
    = (Raise ValueError,
       with_settings_file (DecoderRaises ValueError) (example_world ∅)).
Proof. split; reflexivity. Qed.

(** C5, amended.  A missing settings file gives the empty table and no log
    entry; a file on whose contents [json.load] raises [JSONDecodeError]
    gives the empty table and one logged error that carries the decoder's
    message.  In both cases nothing is raised. *)
Theorem load_user_settings_missing_or_malformed w :
  settings_file w = NoFile \/ (exists msg, settings_file w = Malformed msg) ->
  exists w',
    load_user_settings w = (Ok ∅, w') /\
    (settings_file w = NoFile -> w' = w) /\
    (forall msg, settings_file w = Malformed msg ->
       w' = with_log
              (log w ++ [(ERROR, "Ошибка декодирования JSON из user_settings.json: "
                                 +:+ msg)]) w).
Proof.
  intros [Hf|[msg Hf]]; unfold load_user_settings; rewrite Hf.
  - exists w. split; [done|]. split; [done|]. intros msg Hm. congruence.
  - eexists. split; [reflexivity|]. split; [congruence|].
    intros msg' [= <-]. reflexivity.
Qed.

Lemma malformed_file_witness :
  exists w',
    load_user_settings (example_malformed_world "Expecting value") = (Ok ∅, w') /\
    (settings_file (example_malformed_world "Expecting value") = NoFile ->
     w' = example_malformed_world "Expecting value") /\
    (forall msg,
       settings_file (example_malformed_world "Expecting value") = Malformed msg ->
       w' = with_log
              (log (example_malformed_world "Expecting value")
                 ++ [(ERROR, "Ошибка декодирования JSON из user_settings.json: "
                             +:+ msg)])
              (example_malformed_world "Expecting value")).
Proof.
  apply load_user_settings_missing_or_malformed.
  right. exists "Expecting value". reflexivity.
Defined.

(** C6.  [get_user_config] returns the stored config, and leaves the world
    as it is, for an identifier that is in the table; for one that is not,
    it stores and returns a config with length 16 and the four class flags
    true. *)
Theorem get_user_config_default_or_stored (user_id : Z) w :
  exists config w',
    get_user_config user_id w = (Ok config, w') /\
    user_settings w' !! pretty user_id = Some config /\
    match user_settings w !! pretty user_id with
    | Some stored => config = stored /\ w' = w
    | None =>
        config = get_default_settings /\
        config !! "length" = Some (VInt 16) /\
        config !! "use_upper" = Some (VBool true) /\
        config !! "use_lower" = Some (VBool true) /\
        config !! "use_digits" = Some (VBool true) /\
        config !! "use_symbols" = Some (VBool true) /\
        user_settings w' = <[pretty user_id := config]> (user_settings w)
    end.
Proof.
  destruct (user_settings w !! pretty user_id) as [stored|] eqn:H.
  - exists stored, w. by rewrite (get_user_config_present _ _ _ H).
  - eexists _, _. rewrite (get_user_config_absent _ _ H).
    split; [reflexivity|]. split; [apply lookup_insert_eq|].
    by repeat split.
Qed.

(** C7.  Handling the generate button leaves the pressing user's config,
    and the whole settings table, unchanged. *)
Theorem generate_leaves_config_unchanged (user_id chat_id : Z) w config :
  user_settings w !! pretty user_id = Some config ->
  user_settings (button_callback GENERATE user_id chat_id w).2
    !! pretty user_id = Some config /\
  user_settings (button_callback GENERATE user_id chat_id w).2 = user_settings w.
Proof.
  intros H. rewrite (button_callback_table _ _ _ _ _ H).
  change (config_step GENERATE config) with config.
  rewrite insert_id by done. by split.
Qed.

Lemma generate_unchanged_witness :
  user_settings
    (button_callback GENERATE 42 7
       (example_world {["42" := example_settings 16 true false true true]})).2
    !! pretty 42
    = Some (example_settings 16 true false true true) /\
  user_settings
    (button_callback GENERATE 42 7
       (example_world {["42" := example_settings 16 true false true true]})).2
    = user_settings
        (example_world {["42" := example_settings 16 true false true true]}).
Proof.
  apply generate_leaves_config_unchanged.
  vm_compute. reflexivity.
Defined.

(** On first contact the generate button stores the default config and
    leaves it as created. *)
Lemma generate_first_contact (user_id chat_id : Z) w :
  user_settings w !! pretty user_id = None ->
  user_settings (button_callback GENERATE user_id chat_id w).2 =
  <[pretty user_id := get_default_settings]> (user_settings w).
Proof.
  intros H. rewrite (button_callback_first_contact _ _ _ _ H).
  erewrite button_callback_table by apply lookup_insert_eq.
  cbn [user_settings with_user_settings]. by rewrite insert_insert_eq.
Qed.

End MainStore.

(** ** [src/main.py]: the handlers, step by step *)

Module MainHandlers.
Import Main MainFacts MainStore.

Lemma button_callback_present action (user_id chat_id : Z) w config :
  user_settings w !! pretty user_id = Some config ->
  button_callback action user_id chat_id w =
  ('(needs_update, message) ← action_phase action user_id chat_id config;
   if (needs_update : bool) then refresh user_id message else mret ())
    (with_outbox (outbox w ++ [Answer]) w).
Proof.
  intros H. unfold button_callback.
  rewrite (bind_Ok _ _ w () (with_outbox (outbox w ++ [Answer]) w)) by done.
  erewrite bind_Ok; [reflexivity|].
  by apply get_user_config_present.
Qed.

Lemma complete_length config :
  complete config -> exists v n, config !! "length" = Some v /\ as_int v = Some n.
Proof. by intros [? _]. Qed.

Lemma complete_flag config flag :
  complete config -> flag ∈ class_flags -> is_Some (config !! flag).
Proof. intros [_ H]. apply H. Qed.

Lemma class_flag_not_length flag : flag ∈ class_flags -> flag <> "length".
Proof.
  unfold class_flags. rewrite !elem_of_cons, elem_of_nil.
  intros [->|[->|[->|[->|[]]]]]; done.
Qed.

Lemma complete_insert_flag config flag v :
  complete config -> flag ∈ class_flags -> complete (<[flag := v]> config).
Proof.
  intros [(lv & n & Hl & Hn) Hf] Hin. split.
  - exists lv, n. split; [|done]. rewrite lookup_insert_ne; [done|].
    intros ->. by apply class_flag_not_length in Hin.
  - intros k Hk. destruct (decide (flag = k)) as [->|Hne].
    + rewrite lookup_insert_eq. eauto.
    + rewrite lookup_insert_ne by done. by apply Hf.
Qed.

Lemma complete_insert_length config n :
  complete config -> complete (<["length" := VInt n]> config).
Proof.
  intros [_ Hf]. split.
  - exists (VInt n), n. by rewrite lookup_insert_eq.
  - intros k Hk. rewrite lookup_insert_ne; [by apply Hf|].
    intros <-. by apply class_flag_not_length in Hk.
Qed.

Lemma example_settings_complete n upper lower digits symbols :
  complete (example_settings n upper lower digits symbols).
Proof.
  split.
  - exists (VInt n), n. by split.
  - intros flag. unfold class_flags. rewrite !elem_of_cons, elem_of_nil.
    intros [->|[->|[->|[->|[]]]]]; vm_compute; eauto.
Qed.

Lemma config_step_complete action config :
  complete config -> complete (config_step action config).
Proof.
  intros Hc. unfold config_step.
  destruct (complete_length _ Hc) as (v & n & Hl & Hn). rewrite Hl. cbn. rewrite Hn.
  repeat (match goal with |- context [String.eqb action ?a] =>
            destruct (String.eqb action a) end;
          [first [ by apply complete_insert_length
                 | match goal with |- context [config !! ?k] =>
                     destruct (config !! k); [|done];
                     apply complete_insert_flag; [done|];
                     unfold class_flags; repeat constructor
                   end ] |]).
  done.
Qed.



Lemma action_phase_setter action (user_id chat_id : Z) w config :
  complete config ->
  user_settings w !! pretty user_id = Some config ->
  action ∈ known_actions -> action <> GENERATE ->
  action_phase action user_id chat_id config w =
  (Ok (true, SETTINGS_CHANGED),
   with_user_settings
     (<[pretty user_id := config_step action config]> (user_settings w)) w).
Proof.
  intros Hc Hp Hin Hne.
  destruct (complete_length _ Hc) as (v & n & Hl & Hn).
  assert (Hflag : forall key (message : string), key ∈ class_flags ->
    (toggle (pretty user_id) key config;; mret (true, message)) w =
    (Ok (true, message),
     with_user_settings
       (<[pretty user_id :=
            match config !! key with
            | Some v => <[key := VBool (negb (truthy v))]> config
            | None => config
            end]> (user_settings w)) w)).
  { intros key message Hk. destruct (complete_flag _ _ Hc Hk) as [fv Hfv].
    unfold toggle, mbind, M_bind, of_result, getitem, setitem, modify.
    rewrite Hfv. cbn. by rewrite (alter_present _ _ _ _ Hp). }
  assert (Hbump : forall delta (f : Z -> Z) (message : string),
    (m ← length_plus config delta;
     setitem (pretty user_id) "length" (VInt (f m));; mret (true, message)) w =
    (Ok (true, message),
     with_user_settings
       (<[pretty user_id := <["length" := VInt (f (n + delta))]> config]>
          (user_settings w)) w)).
  { intros delta f message.
    unfold length_plus, mbind, M_bind, of_result, getitem, setitem, modify.
    rewrite Hl, Hn. cbn. by rewrite (alter_present _ _ _ _ Hp). }
  unfold known_actions in Hin. rewrite !elem_of_cons, elem_of_nil in Hin.
  destruct Hin as [->|[->|[->|[->|[->|[->|[->|[]]]]]]]]; [..|done];
    unfold action_phase, config_step; cbn [String.eqb]; simpl String.eqb;
    cbv iota.
  all: try (rewrite Hl; cbn [mbind option_bind]; rewrite Hn).
  - apply Hbump.
  - apply (Hbump (-1)).
  - apply Hflag. repeat constructor.
  - apply Hflag. repeat constructor.
  - apply Hflag. repeat constructor.
  - apply Hflag. repeat constructor.
Qed.

Lemma action_phase_generate (user_id chat_id : Z) config w :
  action_phase GENERATE user_id chat_id config w =
  match generate_password config (rng w) with
  | (Ok pw, g') =>
      (Ok (true, NEXT_PASSWORD),
       with_outbox (outbox w ++ [SendMessage chat_id (password_message pw)])
         (with_rng g' w))
  | (Raise e, g') => (Raise e, with_rng g' w)
  end.
Proof.
  unfold action_phase.
  repeat match goal with
         | |- context [String.eqb ?a ?b] =>
             let r := eval vm_compute in (String.eqb a b) in
             change (String.eqb a b) with r
         end.
  cbv iota. unfold mbind, M_bind, with_random, emit, modify.
  by destruct (generate_password config (rng w)) as [[pw|e] g'].
Qed.

Lemma action_phase_unknown action (user_id chat_id : Z) config w :
  action ∉ known_actions ->
  action_phase action user_id chat_id config w = (Ok (false, SETTINGS_CHANGED), w).
Proof.
  intros Hno. unfold action_phase.
  repeat (match goal with |- context [String.eqb action ?a] =>
            destruct (String.eqb_spec action a) as [->|_];
            [exfalso; apply Hno; unfold known_actions; repeat constructor|]
          end).
  done.
Qed.

Lemma save_user_settings_run table w :
  save_user_settings table w =
  (Ok (),
   match write_error w with
   | None => with_settings_file (Document table) w
   | Some msg =>
       with_log (log w ++ [(ERROR, "Ошибка записи в файл user_settings.json: " +:+ msg)]) w
   end).
Proof. unfold save_user_settings. by destruct (write_error w). Qed.

Lemma refresh_eq (user_id : Z) message w :
  refresh user_id message w =
  build_menu user_id true message (save_user_settings (user_settings w) w).2.
Proof.
  unfold refresh, mbind, M_bind, gets.
  by rewrite !save_user_settings_run.
Qed.

Lemma build_menu_run (user_id : Z) from_callback message_text w config :
  user_settings w !! pretty user_id = Some config -> complete config ->
  exists keyboard,
    build_menu user_id from_callback message_text w =
    (Ok (),
     with_outbox
       (outbox w ++ [if from_callback then EditMessageText message_text keyboard
                     else ReplyText message_text keyboard]) w).
Proof.
  intros Hp Hc. unfold build_menu.
  rewrite (bind_Ok _ _ _ _ _ (get_user_config_present _ _ _ Hp)).
  destruct (complete_length _ Hc) as (v & n & Hl & _).
  destruct (complete_flag _ "use_upper" Hc) as [u Hu]; [repeat constructor|].
  destruct (complete_flag _ "use_lower" Hc) as [l Hlo]; [repeat constructor|].
  destruct (complete_flag _ "use_digits" Hc) as [d Hd]; [repeat constructor|].
  destruct (complete_flag _ "use_symbols" Hc) as [s Hs]; [repeat constructor|].
  unfold mbind, M_bind, of_result, getitem. rewrite Hu, Hlo, Hd, Hs, Hl.
  eexists. by destruct from_callback.
Qed.


(** ** [src/main.py]: what the buttons do to the settings table *)

Lemma config_step_toggle action key config :
  (action, key) ∈ toggle_buttons ->
  config_step action config =
  match config !! key with
  | Some v => <[key := VBool (negb (truthy v))]> config
  | None => config
  end.
Proof.
  unfold toggle_buttons. rewrite !elem_of_cons, elem_of_nil.
  intros [H|[H|[H|[H|[]]]]]; injection H as -> ->; reflexivity.
Qed.

Lemma toggle_button_flag action key :
  (action, key) ∈ toggle_buttons -> key ∈ class_flags.
Proof.
  unfold toggle_buttons. rewrite !elem_of_cons, elem_of_nil.
  intros [H|[H|[H|[H|[]]]]]; injection H as -> ->;
    unfold class_flags; repeat constructor.
Qed.

Lemma press_all_two a1 a2 (user_id chat_id : Z) w :
  press_all [a1; a2] user_id chat_id w =
  (button_callback a2 user_id chat_id (button_callback a1 user_id chat_id w).2).2.
Proof. reflexivity. Qed.

(** X1.  Pressing the same class toggle twice restores the settings table
    when the flag holds a boolean. *)
Theorem toggle_twice_restores action key (user_id chat_id : Z) w config b :
  (action, key) ∈ toggle_buttons ->
  user_settings w !! pretty user_id = Some config ->
  config !! key = Some (VBool b) ->
  user_settings (press_all [action; action] user_id chat_id w) = user_settings w.
Proof.
  intros Hb Hp Hk. rewrite press_all_two.
  pose proof (button_callback_table action user_id chat_id w config Hp) as H1.
  rewrite (config_step_toggle _ _ _ Hb), Hk in H1. cbn [truthy] in H1.
  erewrite button_callback_table; [|rewrite H1; apply lookup_insert_eq].
  rewrite H1, insert_insert_eq, (config_step_toggle _ _ _ Hb), lookup_insert_eq.
  cbn [truthy]. rewrite negb_involutive, insert_insert_eq.
  by rewrite (insert_id config), insert_id.
Qed.

Lemma toggle_twice_witness :
  user_settings
    (press_all [TOGGLE_DIGITS; TOGGLE_DIGITS] 42 7
       (example_world {["42" := example_settings 16 true true false true]}))
  = user_settings
      (example_world {["42" := example_settings 16 true true false true]}).
Proof.
  apply (toggle_twice_restores TOGGLE_DIGITS "use_digits" 42 7 _
           (example_settings 16 true true false true) false).
  - unfold toggle_buttons. repeat constructor.
  - vm_compute. reflexivity.
  - vm_compute. reflexivity.
Defined.

(** X2.  A class toggle replaces its own flag by the negation of its truth
    value and leaves every other key of the config, the length included,
    as it was. *)
Theorem toggle_changes_only_its_flag action key (user_id chat_id : Z) w config v :
  (action, key) ∈ toggle_buttons ->
  user_settings w !! pretty user_id = Some config ->
  config !! key = Some v ->
  exists config',
    user_settings (button_callback action user_id chat_id w).2 !! pretty user_id
      = Some config' /\
    config' !! key = Some (VBool (negb (truthy v))) /\
    forall other, other <> key -> config' !! other = config !! other.
Proof.
  intros Hb Hp Hk. rewrite (button_callback_table _ _ _ _ _ Hp).
  rewrite (config_step_toggle _ _ _ Hb), Hk.
  eexists. split; [apply lookup_insert_eq|]. split.
  - apply lookup_insert_eq.
  - intros other Hne. by rewrite lookup_insert_ne.
Qed.

Lemma toggle_only_its_flag_witness :
  exists config',
    user_settings
      (button_callback TOGGLE_UPPER 42 7
         (example_world {["42" := example_settings 16 true true false true]})).2
      !! pretty 42 = Some config' /\
    config' !! "use_upper" = Some (VBool (negb (truthy (VBool true)))) /\
    forall other, other <> "use_upper" ->
      config' !! other = example_settings 16 true true false true !! other.
Proof.
  apply (toggle_changes_only_its_flag TOGGLE_UPPER "use_upper" 42 7).
  - unfold toggle_buttons. repeat constructor.
  - vm_compute. reflexivity.
  - vm_compute. reflexivity.
Defined.

(** X3.  A button press by one user never changes the config stored for
    another user, first contact included. *)
Theorem press_leaves_other_users action (user_id other chat_id : Z) w :
  other <> user_id ->
  user_settings (button_callback action user_id chat_id w).2 !! pretty other
  = user_settings w !! pretty other.
Proof.
  intros Hne.
  assert (Hk : pretty user_id <> (pretty other : string)).
  { intros E. apply Hne. symmetry. by apply (inj pretty). }
  destruct (user_settings w !! pretty user_id) as [config|] eqn:Hp.
  - rewrite (button_callback_table _ _ _ _ _ Hp). by rewrite lookup_insert_ne.
  - rewrite (button_callback_first_contact _ _ _ _ Hp).
    erewrite button_callback_table by apply lookup_insert_eq.
    cbn [user_settings with_user_settings]. by rewrite !lookup_insert_ne.
Qed.

Lemma other_users_witness :
  user_settings
    (button_callback LEN_INCR 42 7
       (example_world {["43" := example_settings 10 true true true true]})).2
    !! pretty 43
  = user_settings
      (example_world {["43" := example_settings 10 true true true true]})
      !! pretty 43.
Proof. apply press_leaves_other_users. lia. Defined.

Lemma config_step_incr config n :
  config !! "length" = Some (VInt n) ->
  config_step LEN_INCR config = <["length" := VInt (Z.min 64 (n + 1))]> config.
Proof. intros H. unfold config_step. cbn. by rewrite H. Qed.

Lemma config_step_decr config n :
  config !! "length" = Some (VInt n) ->
  config_step LEN_DECR config = <["length" := VInt (Z.max 4 (n - 1))]> config.
Proof. intros H. unfold config_step. cbn. by rewrite H. Qed.

(** X4.  From a length of at most 64, [k] presses of the increment button
    give [min(64, length + k)]: the length grows by one per press and stays
    at 64 once it is reached.  No other key changes. *)
Theorem increments_saturate (k : nat) (user_id chat_id : Z) w config n0 :
  user_settings w !! pretty user_id = Some config ->
  config !! "length" = Some (VInt n0) -> n0 <= 64 ->
  user_settings (press_all (replicate k LEN_INCR) user_id chat_id w)
    !! pretty user_id
  = Some (<["length" := VInt (Z.min 64 (n0 + Z.of_nat k))]> config).
Proof.
  revert w config n0. induction k as [|k IH]; intros w config n0 Hp Hl Hr.
  - cbn [replicate press_all]. rewrite Hp. f_equal. symmetry.
    apply insert_id. rewrite Hl. do 2 f_equal. lia.
  - cbn [replicate press_all].
    erewrite (IH _ (config_step LEN_INCR config) (Z.min 64 (n0 + 1))).
    + rewrite (config_step_incr _ _ Hl), insert_insert_eq. do 3 f_equal. lia.
    + rewrite (button_callback_table _ _ _ _ _ Hp). apply lookup_insert_eq.
    + rewrite (config_step_incr _ _ Hl). apply lookup_insert_eq.
    + lia.
Qed.

Lemma saturating_increments_witness :
  user_settings
    (press_all (replicate 5 LEN_INCR) 42 7
       (example_world {["42" := example_settings 62 true true true true]}))
    !! pretty 42
  = Some (<["length" := VInt (Z.min 64 (62 + Z.of_nat 5))]>
            (example_settings 62 true true true true)).
Proof.
  apply (increments_saturate 5 42 7).
  - vm_compute. reflexivity.
  - vm_compute. reflexivity.
  - lia.
Defined.

(** X5.  From a length of at least 4, [k] presses of the decrement button
    give [max(4, length - k)]. *)
Theorem decrements_saturate (k : nat) (user_id chat_id : Z) w config n0 :
  user_settings w !! pretty user_id = Some config ->
  config !! "length" = Some (VInt n0) -> 4 <= n0 ->
  user_settings (press_all (replicate k LEN_DECR) user_id chat_id w)
    !! pretty user_id
  = Some (<["length" := VInt (Z.max 4 (n0 - Z.of_nat k))]> config).
Proof.
  revert w config n0. induction k as [|k IH]; intros w config n0 Hp Hl Hr.
  - cbn [replicate press_all]. rewrite Hp. f_equal. symmetry.
    apply insert_id. rewrite Hl. do 2 f_equal. lia.
  - cbn [replicate press_all].
    erewrite (IH _ (config_step LEN_DECR config) (Z.max 4 (n0 - 1))).
    + rewrite (config_step_decr _ _ Hl), insert_insert_eq. do 3 f_equal. lia.
    + rewrite (button_callback_table _ _ _ _ _ Hp). apply lookup_insert_eq.
    + rewrite (config_step_decr _ _ Hl). apply lookup_insert_eq.
    + lia.
Qed.

Lemma saturating_decrements_witness :
  user_settings
    (press_all (replicate 5 LEN_DECR) 42 7
       (example_world {["42" := example_settings 6 true true true true]}))
    !! pretty 42
  = Some (<["length" := VInt (Z.max 4 (6 - Z.of_nat 5))]>
            (example_settings 6 true true true true)).
Proof.
  apply (decrements_saturate 5 42 7).
  - vm_compute. reflexivity.
  - vm_compute. reflexivity.
  - lia.
Defined.

(** X6.  An increment followed by a decrement restores the settings table
    when the length is between 4 and 63. *)
Theorem increment_then_decrement_restores (user_id chat_id : Z) w config n0 :
  user_settings w !! pretty user_id = Some config ->
  config !! "length" = Some (VInt n0) -> 4 <= n0 <= 63 ->
  user_settings (press_all [LEN_INCR; LEN_DECR] user_id chat_id w)
  = user_settings w.
Proof.
  intros Hp Hl Hr. rewrite press_all_two.
  pose proof (button_callback_table LEN_INCR user_id chat_id w config Hp) as H1.
  rewrite (config_step_incr _ _ Hl) in H1.
  erewrite button_callback_table; [|rewrite H1; apply lookup_insert_eq].
  rewrite H1, insert_insert_eq.
  erewrite config_step_decr by apply lookup_insert_eq.
  rewrite insert_insert_eq.
  replace (Z.max 4 (Z.min 64 (n0 + 1) - 1)) with n0 by lia.
  by rewrite (insert_id config), insert_id.
Qed.

Lemma increment_then_decrement_witness :
  user_settings
    (press_all [LEN_INCR; LEN_DECR] 42 7
       (example_world {["42" := example_settings 16 true true true true]}))
  = user_settings
      (example_world {["42" := example_settings 16 true true true true]}).
Proof.
  apply (increment_then_decrement_restores 42 7 _
           (example_settings 16 true true true true) 16).
  - vm_compute. reflexivity.
  - vm_compute. reflexivity.
  - lia.
Defined.

(** At the upper bound the pair is not the identity: 64 becomes 63. *)
Example increment_then_decrement_at_64 :
  user_settings
    (press_all [LEN_INCR; LEN_DECR] 42 7
       (example_world {["42" := example_settings 64 true true true true]}))
    !! "42" = Some (example_settings 63 true true true true).
Proof. vm_compute. reflexivity. Qed.

(** ** [src/main.py]: what a press does to the file, the log and the chat *)

Lemma button_callback_known_run action (user_id chat_id : Z) w config :
  user_settings w !! pretty user_id = Some config -> complete config ->
  action ∈ known_actions ->
  exists w2 message keyboard,
    user_settings w2 = <[pretty user_id := config_step action config]> (user_settings w) /\
    settings_file w2 = settings_file w /\
    write_error w2 = write_error w /\
    log w2 = log w /\
    button_callback action user_id chat_id w =
    (Ok (),
     with_outbox
       (outbox (save_user_settings (user_settings w2) w2).2
          ++ [EditMessageText message keyboard])
       (save_user_settings (user_settings w2) w2).2).
Proof.
  intros Hp Hc Hin. rewrite (button_callback_present _ _ _ _ _ Hp).
  set (w1 := with_outbox (outbox w ++ [Answer]) w).
  assert (Hphase : exists w2 message,
    action_phase action user_id chat_id config w1 = (Ok (true, message), w2) /\
    user_settings w2 = <[pretty user_id := config_step action config]> (user_settings w) /\
    settings_file w2 = settings_file w /\ write_error w2 = write_error w /\
    log w2 = log w).
  { destruct (decide (action = GENERATE)) as [->|Hne].
    - rewrite action_phase_generate.
      destruct (complete_length _ Hc) as (v & n & Hl & Hn).
      destruct (MainGenerator.generate_password_total config v n (rng w1) Hl Hn)
        as (pw & g' & ->).
      eexists _, _. split; [reflexivity|].
      change (config_step GENERATE config) with config.
      by rewrite insert_id.
    - rewrite (action_phase_setter action user_id chat_id w1 config Hc Hp Hin Hne).
      eexists _, _. by split. }
  destruct Hphase as (w2 & message & Hph & Ht & Hf & He & Hlg).
  rewrite (bind_Ok _ _ _ _ _ Hph). rewrite refresh_eq.
  edestruct (build_menu_run user_id true message
               (save_user_settings (user_settings w2) w2).2
               (config_step action config)) as [keyboard Hk].
  { rewrite save_user_settings_table, Ht. apply lookup_insert_eq. }
  { by apply config_step_complete. }
  exists w2, message, keyboard. by rewrite Hk.
Qed.

(** X7.  When the settings file can be written, a press of any known button
    on a complete config returns normally, and the file then holds exactly
    the settings table the press left in memory. *)
Theorem press_persists_table action (user_id chat_id : Z) w config :
  user_settings w !! pretty user_id = Some config -> complete config ->
  action ∈ known_actions -> write_error w = None ->
  (button_callback action user_id chat_id w).1 = Ok () /\
  settings_file (button_callback action user_id chat_id w).2
    = Document (user_settings (button_callback action user_id chat_id w).2) /\
  user_settings (button_callback action user_id chat_id w).2
    = <[pretty user_id := config_step action config]> (user_settings w).
Proof.
  intros Hp Hc Hin Hw.
  destruct (button_callback_known_run action user_id chat_id w config Hp Hc Hin)
    as (w2 & message & keyboard & Ht & _ & He & _ & ->).
  rewrite save_user_settings_run, He, Hw. cbn. by rewrite Ht.
Qed.

Lemma press_persists_witness :
  (button_callback TOGGLE_LOWER 42 7
     (example_world {["42" := example_settings 16 true true true true]})).1
    = Ok () /\
  settings_file
    (button_callback TOGGLE_LOWER 42 7
       (example_world {["42" := example_settings 16 true true true true]})).2
    = Document
        (user_settings
           (button_callback TOGGLE_LOWER 42 7
              (example_world {["42" := example_settings 16 true true true true]})).2) /\
  user_settings
    (button_callback TOGGLE_LOWER 42 7
       (example_world {["42" := example_settings 16 true true true true]})).2
    = <[pretty 42 := config_step TOGGLE_LOWER (example_settings 16 true true true true)]>
        (user_settings
           (example_world {["42" := example_settings 16 true true true true]})).
Proof.
  apply (press_persists_table TOGGLE_LOWER 42 7).
  - vm_compute. reflexivity.
  - apply example_settings_complete.
  - unfold known_actions. repeat constructor.
  - reflexivity.
Defined.

(** X8.  When the settings file cannot be written, the press still returns
    normally and keeps its change in memory; the file is left as it was and
    one error is logged. *)
Theorem failed_write_is_logged action (user_id chat_id : Z) w config msg :
  user_settings w !! pretty user_id = Some config -> complete config ->
  action ∈ known_actions -> write_error w = Some msg ->
  (button_callback action user_id chat_id w).1 = Ok () /\
  settings_file (button_callback action user_id chat_id w).2 = settings_file w /\
  log (button_callback action user_id chat_id w).2
    = log w ++ [(ERROR, "Ошибка записи в файл user_settings.json: " +:+ msg)] /\
  user_settings (button_callback action user_id chat_id w).2
    = <[pretty user_id := config_step action config]> (user_settings w).
Proof.
  intros Hp Hc Hin Hw.
  destruct (button_callback_known_run action user_id chat_id w config Hp Hc Hin)
    as (w2 & message & keyboard & Ht & Hf & He & Hlg & ->).
  rewrite save_user_settings_run, He, Hw. cbn. by rewrite Ht, Hf, Hlg.
Qed.

Lemma failed_write_witness :
  (button_callback LEN_DECR 42 7
     (mkWorld {["42" := example_settings 16 true true true true]} example_rng
        NoFile (Some "Permission denied") [] [])).1 = Ok () /\
  settings_file
    (button_callback LEN_DECR 42 7
       (mkWorld {["42" := example_settings 16 true true true true]} example_rng
          NoFile (Some "Permission denied") [] [])).2
    = settings_file
        (mkWorld {["42" := example_settings 16 true true true true]} example_rng
           NoFile (Some "Permission denied") [] []) /\
  log
    (button_callback LEN_DECR 42 7
       (mkWorld {["42" := example_settings 16 true true true true]} example_rng
          NoFile (Some "Permission denied") [] [])).2
    = log (mkWorld {["42" := example_settings 16 true true true true]} example_rng
             NoFile (Some "Permission denied") [] [])
      ++ [(ERROR, "Ошибка записи в файл user_settings.json: " +:+ "Permission denied")] /\
  user_settings
    (button_callback LEN_DECR 42 7
       (mkWorld {["42" := example_settings 16 true true true true]} example_rng
          NoFile (Some "Permission denied") [] [])).2
    = <[pretty 42 := config_step LEN_DECR (example_settings 16 true true true true)]>
        (user_settings
           (mkWorld {["42" := example_settings 16 true true true true]} example_rng
              NoFile (Some "Permission denied") [] [])).
Proof.
  apply (failed_write_is_logged LEN_DECR 42 7).
  - vm_compute. reflexivity.
  - apply example_settings_complete.
  - unfold known_actions. repeat constructor.
  - reflexivity.
Defined.

(** X9.  A callback that is not one of the seven known actions (the length
    label among them) is answered and, apart from the default config that
    [get_user_config] stores for a user who is not yet in the table,
    nothing else happens: no stored setting changes, nothing is saved,
    logged or sent, the menu is not redrawn. *)
Theorem unknown_action_only_answers action (user_id chat_id : Z) w :
  action ∉ known_actions ->
  button_callback action user_id chat_id w
  = (Ok (),
     with_outbox (outbox w ++ [Answer])
       match user_settings w !! pretty user_id with
       | Some _ => w
       | None =>
           with_user_settings
             (<[pretty user_id := get_default_settings]> (user_settings w)) w
       end).
Proof.
  intros Hno.
  destruct (user_settings w !! pretty user_id) as [config|] eqn:Hp.
  - rewrite (button_callback_present _ _ _ _ _ Hp).
    erewrite bind_Ok; [|by apply action_phase_unknown]. reflexivity.
  - rewrite (button_callback_first_contact _ _ _ _ Hp).
    erewrite button_callback_present
      by (cbn [user_settings with_user_settings]; apply lookup_insert_eq).
    erewrite bind_Ok; [|by apply action_phase_unknown]. reflexivity.
Qed.

Lemma unknown_action_witness :
  button_callback LEN_INFO 42 7 (example_world ∅)
  = (Ok (),
     with_outbox (outbox (example_world ∅) ++ [Answer])
       match user_settings (example_world ∅) !! pretty 42 with
       | Some _ => example_world ∅
       | None =>
           with_user_settings
             (<[pretty 42 := get_default_settings]>
                (user_settings (example_world ∅)))
             (example_world ∅)
       end).
Proof.
  apply (unknown_action_only_answers LEN_INFO 42 7).
  unfold known_actions. rewrite !elem_of_cons, elem_of_nil.
  intros [H|[H|[H|[H|[H|[H|[H|[]]]]]]]]; discriminate H.
Defined.

(** For a user who is already in the table the world is left as it was,
    the answer apart. *)
Example unknown_action_known_user :
  button_callback LEN_INFO 42 7
    (example_world {["42" := example_settings 16 true true true true]})
  = (Ok (),
     with_outbox [Answer]
       (example_world {["42" := example_settings 16 true true true true]})).
Proof. vm_compute. reflexivity. Qed.

(** X10.  Toggling a class whose flag is missing from the stored config
    raises [KeyError] for that flag after the query was answered; the
    config, the file and the log are untouched and no menu is drawn. *)
Theorem toggle_missing_flag_raises action key (user_id chat_id : Z) w config :
  (action, key) ∈ toggle_buttons ->
  user_settings w !! pretty user_id = Some config ->
  config !! key = None ->
  button_callback action user_id chat_id w
  = (Raise (KeyError key), with_outbox (outbox w ++ [Answer]) w).
Proof.
  intros Hb Hp Hk. rewrite (button_callback_present _ _ _ _ _ Hp).
  erewrite bind_Raise; [reflexivity|].
  unfold toggle_buttons in Hb. rewrite !elem_of_cons, elem_of_nil in Hb.
  destruct Hb as [H|[H|[H|[H|[]]]]]; injection H as -> ->;
    unfold action_phase;
    repeat match goal with
           | |- context [String.eqb ?a ?b] =>
               let r := eval vm_compute in (String.eqb a b) in
               change (String.eqb a b) with r
           end;
    cbv iota; unfold toggle, mbind, M_bind, of_result, getitem; by rewrite Hk.
Qed.

Lemma toggle_missing_flag_witness :
  button_callback TOGGLE_SYMBOLS 42 7
    (example_world
       {["42" := delete "use_symbols" (example_settings 16 true true true true)]})
  = (Raise (KeyError "use_symbols"),
     with_outbox
       (outbox
          (example_world
             {["42" := delete "use_symbols" (example_settings 16 true true true true)]})
          ++ [Answer])
       (example_world
          {["42" := delete "use_symbols" (example_settings 16 true true true true)]})).
Proof.
  apply (toggle_missing_flag_raises TOGGLE_SYMBOLS "use_symbols" 42 7 _
           (delete "use_symbols" (example_settings 16 true true true true))).
  - unfold toggle_buttons. repeat constructor.
  - vm_compute. reflexivity.
  - vm_compute. reflexivity.
Defined.

Lemma build_menu_frame (user_id : Z) from_callback message_text w config :
  user_settings w !! pretty user_id = Some config ->
  exists rest,
    outbox (build_menu user_id from_callback message_text w).2 = outbox w ++ rest /\
    rng (build_menu user_id from_callback message_text w).2 = rng w.
Proof.
  intros Hp. unfold build_menu.
  rewrite (bind_Ok _ _ _ _ _ (get_user_config_present _ _ _ Hp)).
  unfold mbind, M_bind, of_result, getitem.
  destruct (config !! "use_upper"); [|exists []; by rewrite app_nil_r].
  destruct (config !! "use_lower"); [|exists []; by rewrite app_nil_r].
  destruct (config !! "use_digits"); [|exists []; by rewrite app_nil_r].
  destruct (config !! "use_symbols"); [|exists []; by rewrite app_nil_r].
  destruct (config !! "length"); [|exists []; by rewrite app_nil_r].
  destruct from_callback; by eexists.
Qed.

(** X11.  The generate button sends, right after answering the query, one
    message that carries exactly the password [generate_password] returns
    for the stored config and the current random state, and the random
    state advances to the one the generator left. *)
Theorem generate_sends_generated_password (user_id chat_id : Z) w config pw g' :
  user_settings w !! pretty user_id = Some config ->
  generate_password config (rng w) = (Ok pw, g') ->
  exists rest,
    outbox (button_callback GENERATE user_id chat_id w).2
      = outbox w ++ Answer :: SendMessage chat_id (password_message pw) :: rest /\
    rng (button_callback GENERATE user_id chat_id w).2 = g'.
Proof.
  intros Hp Hgen. rewrite (button_callback_present _ _ _ _ _ Hp).
  erewrite bind_Ok; [|rewrite action_phase_generate; cbn [rng with_outbox];
                      rewrite Hgen; reflexivity].
  cbv beta iota. rewrite refresh_eq, save_user_settings_run.
  cbn [snd].
  match goal with
  | |- context [build_menu _ _ _ ?ws] =>
      destruct (build_menu_frame user_id true NEXT_PASSWORD ws config)
        as (rest & Ho & Hr)
  end.
  { by destruct (write_error _). }
  exists rest. rewrite Ho, Hr.
  destruct (write_error _); cbn; by rewrite <- !app_assoc.
Qed.

Lemma generate_sends_witness :
  exists rest,
    outbox
      (button_callback GENERATE 42 7
         (example_world {["42" := example_settings 8 true true true true]})).2
      = outbox (example_world {["42" := example_settings 8 true true true true]})
        ++ Answer :: SendMessage 7 (password_message "1&5Cb;&F") :: rest /\
    rng
      (button_callback GENERATE 42 7
         (example_world {["42" := example_settings 8 true true true true]})).2
      = (generate_password (example_settings 8 true true true true) example_rng).2.
Proof.
  apply (generate_sends_generated_password 42 7 _
           (example_settings 8 true true true true)).
  - vm_compute. reflexivity.
  - vm_compute. reflexivity.
Defined.

(** X12.  When [generate_password] raises on the stored config, the
    generate button sends no message, saves nothing and draws no menu: the
    exception leaves the handler with only the query answered. *)
Theorem generate_failure_sends_nothing (user_id chat_id : Z) w config e g' :
  user_settings w !! pretty user_id = Some config ->
  generate_password config (rng w) = (Raise e, g') ->
  button_callback GENERATE user_id chat_id w
  = (Raise e, with_rng g' (with_outbox (outbox w ++ [Answer]) w)).
Proof.
  intros Hp Hgen. rewrite (button_callback_present _ _ _ _ _ Hp).
  erewrite bind_Raise; [reflexivity|].
  rewrite action_phase_generate. cbn [rng with_outbox]. by rewrite Hgen.
Qed.

Lemma generate_failure_witness :
  button_callback GENERATE 42 7
    (example_world {["42" := delete "length" (example_settings 8 true true true true)]})
  = (Raise (KeyError "length"),
     with_rng example_rng
       (with_outbox
          (outbox
             (example_world
                {["42" := delete "length" (example_settings 8 true true true true)]})
             ++ [Answer])
          (example_world
             {["42" := delete "length" (example_settings 8 true true true true)]}))).
Proof.
  apply (generate_failure_sends_nothing 42 7 _
           (delete "length" (example_settings 8 true true true true))).
  - vm_compute. reflexivity.
  - vm_compute. reflexivity.
Defined.



(** ** [src/main.py]: the menu and [/start] *)

(** X14.  For a complete config [build_menu] raises nothing, changes
    nothing but the transport, and sends exactly one menu: eight buttons
    whose callback data are the seven known actions and the length label,
    the label showing the stored length. *)
Theorem build_menu_offers_known_actions (user_id : Z) from_callback message_text
    w config :
  user_settings w !! pretty user_id = Some config -> complete config ->
  exists keyboard,
    build_menu user_id from_callback message_text w =
    (Ok (),
     with_outbox
       (outbox w ++ [if from_callback then EditMessageText message_text keyboard
                     else ReplyText message_text keyboard]) w) /\
    callback_data <$> concat keyboard =
      [LEN_DECR; LEN_INFO; LEN_INCR; TOGGLE_UPPER; TOGGLE_LOWER;
       TOGGLE_DIGITS; TOGGLE_SYMBOLS; GENERATE] /\
    Forall (fun b => callback_data b ∈ menu_callbacks) (concat keyboard) /\
    exists v, config !! "length" = Some v /\
      Build_button ("Длина: " +:+ str v) LEN_INFO ∈ concat keyboard.
Proof.
  intros Hp Hc. unfold build_menu.
  rewrite (bind_Ok _ _ _ _ _ (get_user_config_present _ _ _ Hp)).
  destruct (complete_length _ Hc) as (v & n & Hl & _).
  destruct (complete_flag _ "use_upper" Hc) as [u Hu]; [repeat constructor|].
  destruct (complete_flag _ "use_lower" Hc) as [l Hlo]; [repeat constructor|].
  destruct (complete_flag _ "use_digits" Hc) as [d Hd]; [repeat constructor|].
  destruct (complete_flag _ "use_symbols" Hc) as [s Hs]; [repeat constructor|].
  unfold mbind, M_bind, of_result, getitem. rewrite Hu, Hlo, Hd, Hs, Hl.
  eexists. split; [by destruct from_callback|].
  split; [reflexivity|]. split.
  - unfold menu_callbacks, known_actions. cbn [concat app].
    repeat (apply Forall_cons; split; [cbn [callback_data]; repeat constructor|]).
    apply Forall_nil_2.
  - exists v. split; [done|]. cbn [concat app]. repeat constructor.
Qed.

Lemma build_menu_witness :
  exists keyboard,
    build_menu 42 true SETTINGS_CHANGED
      (example_world {["42" := example_settings 16 true true true true]}) =
    (Ok (),
     with_outbox
       (outbox (example_world {["42" := example_settings 16 true true true true]})
          ++ [if true then EditMessageText SETTINGS_CHANGED keyboard
              else ReplyText SETTINGS_CHANGED keyboard])
       (example_world {["42" := example_settings 16 true true true true]})) /\
    callback_data <$> concat keyboard =
      [LEN_DECR; LEN_INFO; LEN_INCR; TOGGLE_UPPER; TOGGLE_LOWER;
       TOGGLE_DIGITS; TOGGLE_SYMBOLS; GENERATE] /\
    Forall (fun b => callback_data b ∈ menu_callbacks) (concat keyboard) /\
    exists v, example_settings 16 true true true true !! "length" = Some v /\
      Build_button ("Длина: " +:+ str v) LEN_INFO ∈ concat keyboard.
Proof.
  apply build_menu_offers_known_actions.
  - vm_compute. reflexivity.
  - apply example_settings_complete.
Defined.

(** X15.  [/start] from a user who is not in the table stores the default
    config in memory and replies with the welcome menu; it raises nothing
    and does not write the settings file or the log. *)
Theorem start_command_first_contact (user_id : Z) w :
  user_settings w !! pretty user_id = None ->
  exists keyboard,
    start_command user_id w =
    (Ok (),
     with_outbox (outbox w ++ [ReplyText WELCOME keyboard])
       (with_user_settings
          (<[pretty user_id := get_default_settings]> (user_settings w)) w)).
Proof.
  intros Hp. unfold start_command, build_menu.
  rewrite (bind_Ok _ _ _ _ _ (get_user_config_absent _ _ Hp)).
  eexists. reflexivity.
Qed.

Lemma start_command_witness :
  exists keyboard,
    start_command 42 (example_world ∅) =
    (Ok (),
     with_outbox (outbox (example_world ∅) ++ [ReplyText WELCOME keyboard])
       (with_user_settings
          (<[pretty 42 := get_default_settings]> (user_settings (example_world ∅)))
          (example_world ∅))).
Proof. apply start_command_first_contact. vm_compute. reflexivity. Defined.

(** X16.  A second [get_user_config] for the same user returns the same
    config and changes nothing; a [get_user_config] for one user never
    touches the entry of another. *)
Theorem get_user_config_idempotent (user_id other : Z) w :
  other <> user_id ->
  get_user_config user_id (get_user_config user_id w).2 = get_user_config user_id w /\
  user_settings (get_user_config user_id w).2 !! pretty other
    = user_settings w !! pretty other.
Proof.
  intros Hne.
  assert (Hk : pretty user_id <> (pretty other : string)).
  { intros E. apply Hne. symmetry. by apply (inj pretty). }
  destruct (user_settings w !! pretty user_id) as [config|] eqn:Hp.
  - rewrite (get_user_config_present _ _ _ Hp). cbn [snd].
    by rewrite (get_user_config_present _ _ _ Hp).
  - rewrite (get_user_config_absent _ _ Hp). cbn [snd user_settings with_user_settings].
    split; [|by rewrite lookup_insert_ne].
    apply get_user_config_present. cbn. apply lookup_insert_eq.
Qed.

Lemma idempotent_lookup_witness :
  get_user_config 42 (get_user_config 42 (example_world ∅)).2
    = get_user_config 42 (example_world ∅) /\
  user_settings (get_user_config 42 (example_world ∅)).2 !! pretty 43
    = user_settings (example_world ∅) !! pretty 43.
Proof. apply get_user_config_idempotent. lia. Defined.

Lemma all_off_enabled config flag :
  flag ∈ class_flags ->
  enabled
    (<["use_symbols" := VBool false]> (<["use_digits" := VBool false]>
       (<["use_lower" := VBool false]> (<["use_upper" := VBool false]> config))))
    flag = false.
Proof.
  unfold class_flags. rewrite !elem_of_cons, elem_of_nil.
  intros [->|[->|[->|[->|[]]]]]; unfold enabled, get;
    repeat (rewrite lookup_insert_ne by done); by rewrite lookup_insert_eq.
Qed.

(** X17.  Switching the four classes off, one toggle each, and then
    pressing generate sends the no-class message in place of a password. *)
Theorem all_classes_off_then_generate (user_id chat_id : Z) w config :
  user_settings w !! pretty user_id = Some config -> complete config ->
  (forall flag, flag ∈ class_flags -> enabled config flag = true) ->
  SendMessage chat_id (password_message NO_CLASS_MESSAGE) ∈
    outbox
      (press_all [TOGGLE_UPPER; TOGGLE_LOWER; TOGGLE_DIGITS; TOGGLE_SYMBOLS; GENERATE]
         user_id chat_id w).
Proof.
  intros Hp Hc Hon.
  destruct (complete_length _ Hc) as (v & n & Hl & Hn).
  assert (Hval : forall flag, flag ∈ class_flags ->
            exists fv, config !! flag = Some fv /\ truthy fv = true).
  { intros flag Hin. destruct (complete_flag _ _ Hc Hin) as [fv Hfv].
    exists fv. split; [done|]. specialize (Hon flag Hin).
    unfold enabled, get in Hon. by rewrite Hfv in Hon. }
  destruct (Hval "use_upper") as (u & Hu & Tu); [unfold class_flags; repeat constructor|].
  destruct (Hval "use_lower") as (l & Hlo & Tl); [unfold class_flags; repeat constructor|].
  destruct (Hval "use_digits") as (d & Hd & Td); [unfold class_flags; repeat constructor|].
  destruct (Hval "use_symbols") as (s & Hs & Ts); [unfold class_flags; repeat constructor|].
  set (c1 := <["use_upper" := VBool false]> config).
  set (c2 := <["use_lower" := VBool false]> c1).
  set (c3 := <["use_digits" := VBool false]> c2).
  set (c4 := <["use_symbols" := VBool false]> c3).
  cbn [press_all].
  set (w1 := (button_callback TOGGLE_UPPER user_id chat_id w).2).
  set (w2 := (button_callback TOGGLE_LOWER user_id chat_id w1).2).
  set (w3 := (button_callback TOGGLE_DIGITS user_id chat_id w2).2).
  set (w4 := (button_callback TOGGLE_SYMBOLS user_id chat_id w3).2).
  assert (H1 : user_settings w1 !! pretty user_id = Some c1).
  { unfold w1. rewrite (button_callback_table _ _ _ _ _ Hp), lookup_insert_eq.
    f_equal. unfold config_step. cbn. by rewrite Hu, Tu. }
  assert (H2 : user_settings w2 !! pretty user_id = Some c2).
  { unfold w2. rewrite (button_callback_table _ _ _ _ _ H1), lookup_insert_eq.
    f_equal. unfold config_step. cbn. unfold c1 at 1.
    rewrite lookup_insert_ne by done. by rewrite Hlo, Tl. }
  assert (H3 : user_settings w3 !! pretty user_id = Some c3).
  { unfold w3. rewrite (button_callback_table _ _ _ _ _ H2), lookup_insert_eq.
    f_equal. unfold config_step. cbn. unfold c2 at 1, c1 at 1.
    rewrite !lookup_insert_ne by done. by rewrite Hd, Td. }
  assert (H4 : user_settings w4 !! pretty user_id = Some c4).
  { unfold w4. rewrite (button_callback_table _ _ _ _ _ H3), lookup_insert_eq.
    f_equal. unfold config_step. cbn. unfold c3 at 1, c2 at 1, c1 at 1.
    rewrite !lookup_insert_ne by done. by rewrite Hs, Ts. }
  assert (Hgen : exists g', generate_password c4 (rng w4) = (Ok NO_CLASS_MESSAGE, g')).
  { destruct (generate_password_eq c4 v (rng w4)) as (acc & g' & Hseed & ->).
    { unfold c4, c3, c2, c1. by rewrite !lookup_insert_ne. }
    exists g'. apply MainGenerator.finish_none.
    rewrite enabled_classes_eq in Hseed. unfold c4, c3, c2, c1 in Hseed.
    rewrite !all_off_enabled in Hseed by (unfold class_flags; repeat constructor).
    by destruct Hseed as [-> _]. }
  destruct Hgen as [g' Hgen].
  rewrite (button_callback_present _ _ _ _ _ H4).
  erewrite bind_Ok; [|rewrite action_phase_generate; cbn [rng with_outbox];
                      rewrite Hgen; reflexivity].
  cbv beta iota. rewrite refresh_eq, save_user_settings_run. cbn [snd].
  match goal with
  | |- context [build_menu _ _ _ ?ws] =>
      destruct (build_menu_frame user_id true NEXT_PASSWORD ws c4)
        as (rest & -> & _); [by destruct (write_error _)|]
  end.
  destruct (write_error _); cbn; rewrite !elem_of_app, !elem_of_cons; tauto.
Qed.

Lemma all_classes_off_witness :
  SendMessage 7 (password_message NO_CLASS_MESSAGE) ∈
    outbox
      (press_all [TOGGLE_UPPER; TOGGLE_LOWER; TOGGLE_DIGITS; TOGGLE_SYMBOLS; GENERATE]
         42 7 (example_world {["42" := example_settings 16 true true true true]})).
Proof.
  apply (all_classes_off_then_generate 42 7 _
           (example_settings 16 true true true true)).
  - vm_compute. reflexivity.
  - apply example_settings_complete.
  - intros flag. unfold class_flags. rewrite !elem_of_cons, elem_of_nil.
    intros [->|[->|[->|[->|[]]]]]; reflexivity.
Defined.

(** X23.  A length button pressed on a stored config whose length is
    missing or not a number raises ([KeyError] or [TypeError]) right after
    the query was answered, and changes nothing else. *)
Theorem length_button_bad_length action (user_id chat_id : Z) w config :
  user_settings w !! pretty user_id = Some config ->
  config !! "length" ≫= as_int = None ->
  action = LEN_INCR \/ action = LEN_DECR ->
  exists e,
    (e = KeyError "length" \/ e = TypeError) /\
    button_callback action user_id chat_id w
    = (Raise e, with_outbox (outbox w ++ [Answer]) w).
Proof.
  intros Hp Hbad Hact. rewrite (button_callback_present _ _ _ _ _ Hp).
  assert (Hplus : forall delta w1,
    exists e, (e = KeyError "length" \/ e = TypeError) /\
              length_plus config delta w1 = (Raise e, w1)).
  { intros delta w1. unfold length_plus, mbind, M_bind, of_result, getitem.
    destruct (config !! "length") as [v|]; [|by eexists; split; [left|]].
    cbn in Hbad. rewrite Hbad. by eexists; split; [right|]. }
  destruct Hact as [-> | ->].
  - destruct (Hplus 1 (with_outbox (outbox w ++ [Answer]) w)) as (e & He & Hr).
    exists e. split; [done|]. erewrite bind_Raise; [reflexivity|].
    unfold action_phase.
    repeat match goal with
           | |- context [String.eqb ?a ?b] =>
               let r := eval vm_compute in (String.eqb a b) in
               change (String.eqb a b) with r
           end.
    cbv iota. by rewrite (bind_Raise _ _ _ _ _ Hr).
  - destruct (Hplus (-1) (with_outbox (outbox w ++ [Answer]) w)) as (e & He & Hr).
    exists e. split; [done|]. erewrite bind_Raise; [reflexivity|].
    unfold action_phase.
    repeat match goal with
           | |- context [String.eqb ?a ?b] =>
               let r := eval vm_compute in (String.eqb a b) in
               change (String.eqb a b) with r
           end.
    cbv iota. by rewrite (bind_Raise _ _ _ _ _ Hr).
Qed.

Lemma bad_length_button_witness :
  exists e,
    (e = KeyError "length" \/ e = TypeError) /\
    button_callback LEN_INCR 42 7
      (example_world
         {["42" := <["length" := VStr "16"]> (example_settings 16 true true true true)]})
    = (Raise e,
       with_outbox
         (outbox
            (example_world
               {["42" := <["length" := VStr "16"]>
                           (example_settings 16 true true true true)]})
            ++ [Answer])
         (example_world
            {["42" := <["length" := VStr "16"]>
                        (example_settings 16 true true true true)]})).
Proof.
  apply (length_button_bad_length LEN_INCR 42 7 _
           (<["length" := VStr "16"]> (example_settings 16 true true true true))).
  - vm_compute. reflexivity.
  - vm_compute. reflexivity.
  - left. reflexivity.
Defined.

End MainHandlers.

(** ** [src/main.py]: the generator on unusual lengths *)

Module MainGeneratorEdges.
Import Main MainFacts.

(** X18.  With at least one class enabled, a length that is not a number
    ([None] or a string) makes [generate_password] raise [TypeError]. *)
Theorem generate_password_non_numeric_length settings v g :
  settings !! "length" = Some v -> as_int v = None ->
  (1 <= enabled_count settings)%nat ->
  exists g', generate_password settings g = (Raise TypeError, g').
Proof.
  intros Hl Hv Hone.
  destruct (generate_password_eq settings v g Hl) as (acc & g1 & Hs & ->).
  pose proof (MainGenerator.pool_nonempty _ _ Hs Hone) as Hpool.
  exists g1. unfold main_finish.
  rewrite bool_decide_eq_false_2 by done. by rewrite Hv.
Qed.

Lemma non_numeric_length_witness :
  exists g',
    generate_password
      (<["length" := VStr "12"]> (example_settings 12 true true true true))
      example_rng = (Raise TypeError, g').
Proof.
  apply (generate_password_non_numeric_length _ (VStr "12")).
  - vm_compute. reflexivity.
  - reflexivity.
  - vm_compute. lia.
Defined.

(** X19.  With at least one class enabled, every non-negative requested
    length is met exactly, below the number of enabled classes as well as
    above it; length 0 gives the empty string. *)
Theorem generate_password_nonnegative_length settings v n g :
  settings !! "length" = Some v -> as_int v = Some n -> 0 <= n ->
  (1 <= enabled_count settings)%nat ->
  exists pw g',
    generate_password settings g = (Ok pw, g') /\
    Z.of_nat (String.length pw) = n.
Proof.
  intros Hl Hv Hn Hone.
  destruct (generate_password_eq settings v g Hl) as (acc & g1 & Hs & ->).
  pose proof (MainGenerator.pool_nonempty _ _ Hs Hone) as Hpool.
  pose proof (seeded_length _ _ Hs) as Hg.
  destruct (Z_lt_le_dec n (Z.of_nat (length (enabled_classes symbols settings))))
    as [Hshort|Hlong].
  - destruct (MainGenerator.finish_short _ acc v n g1 Hs Hpool Hv Hshort)
      as (sh & g2 & -> & Hperm).
    exists (join (slice_to sh n)), g2. split; [done|].
    rewrite length_join, length_slice_to, (Permutation_length Hperm), Hg.
    destruct (Z.ltb_spec n 0); lia.
  - destruct (MainGenerator.finish_long _ acc v n g1 Hs Hpool Hv Hlong)
      as (fill & pl & g2 & -> & Hperm & Hfill & _).
    exists (join pl), g2. split; [done|].
    rewrite length_join, (Permutation_length Hperm), length_app, Hfill, Hg. lia.
Qed.

Lemma nonnegative_length_witness :
  exists pw g',
    generate_password (example_settings 0 true false true false) example_rng
      = (Ok pw, g') /\
    Z.of_nat (String.length pw) = 0.
Proof.
  apply (generate_password_nonnegative_length _ (VInt 0) 0).
  - vm_compute. reflexivity.
  - reflexivity.
  - lia.
  - vm_compute. lia.
Defined.

End MainGeneratorEdges.

(** ** [src/telegram_password_bot.py]: the generator in general *)

Module TelegramGeneratorEdges.
Import TelegramPasswordBot TelegramGenerator.

(** X20.  In [telegram_password_bot.py], with the four flags present, a
    numeric length and at least one class enabled, [generate_password]
    returns a password of [max(length, enabled classes)] characters, all
    from enabled classes, with a character of every enabled class. *)
Theorem telegram_generate_password_spec settings v n g :
  settings !! "length" = Some v -> as_int v = Some n ->
  (forall flag chars, (flag, chars) ∈ class_table symbols -> is_Some (settings !! flag)) ->
  (1 <= enabled_count settings)%nat ->
  exists pw g',
    generate_password settings g = (Ok pw, g') /\
    Z.of_nat (String.length pw) = Z.max n (Z.of_nat (enabled_count settings)) /\
    (forall flag chars,
       (flag, chars) ∈ class_table symbols -> enabled settings flag = true ->
       exists c, c ∈ list_ascii_of_string pw /\ c ∈ chars) /\
    (forall c, c ∈ list_ascii_of_string pw ->
       exists flag chars,
         (flag, chars) ∈ class_table symbols /\ enabled settings flag = true /\
         c ∈ chars).
Proof.
  intros Hl Hv Hflags Hone.
  destruct (telegram_generate_password_eq settings v g Hl Hflags)
    as (acc & g1 & Hs & ->).
  assert (Hpool : acc.1 <> []).
  { eapply seeded_pool_nonempty; [exact Hs | |].
    - intros E. apply (f_equal length) in E.
      rewrite length_enabled_classes in E. simpl in E. lia.
    - intros chars. by apply enabled_classes_nonempty. }
  pose proof (seeded_length _ _ Hs) as Hg. rewrite length_enabled_classes in Hg.
  unfold telegram_finish. rewrite bool_decide_eq_false_2 by done. rewrite Hv.
  destruct (choices_ok (Z.to_nat (n - Z.of_nat (length acc.2))) acc.1 g1 Hpool)
    as (fill & g2 & Hfill & Hlen & Hall).
  destruct (shuffle_ok (acc.2 ++ fill) g2) as (pl & g3 & Hsh & Hperm).
  rewrite (bind_Ok _ _ _ _ _ Hfill), (bind_Ok _ _ _ _ _ Hsh).
  exists (join pl), g3. split; [done|]. split; [|split].
  - rewrite length_join, (Permutation_length Hperm), length_app, Hlen, Hg. lia.
  - intros flag chars Hin Hen.
    destruct (seeded_class_has_guaranteed _ _ chars Hs) as (c & Hc & Hcc).
    { apply elem_of_enabled_classes. by exists flag. }
    exists c. split; [|done]. rewrite chars_join, Hperm. apply elem_of_app. by left.
  - intros c. rewrite chars_join, Hperm. intros [Hc|Hc]%elem_of_app.
    + destruct (seeded_guaranteed_in_class _ _ c Hs Hc) as (chars & Hin & Hcc).
      apply elem_of_enabled_classes in Hin as (flag & ? & ?). by exists flag, chars.
    + destruct (seeded_pool_in_class _ _ c Hs) as (chars & Hin & Hcc).
      { by eapply (proj1 (Forall_forall _ _) Hall). }
      apply elem_of_enabled_classes in Hin as (flag & ? & ?). by exists flag, chars.
Qed.

Lemma example_settings_flags n upper lower digits syms flag chars :
  (flag, chars) ∈ class_table symbols ->
  is_Some (example_settings n upper lower digits syms !! flag).
Proof.
  intros Hin. apply (list_elem_of_fmap_2 fst) in Hin.
  change (flag ∈ class_flags) in Hin. unfold class_flags in Hin.
  rewrite !elem_of_cons, elem_of_nil in Hin.
  destruct Hin as [->|[->|[->|[->|[]]]]]; vm_compute; eauto.
Qed.

Lemma telegram_spec_witness :
  exists pw g',
    generate_password (example_settings 10 true false true true) example_rng
      = (Ok pw, g') /\
    Z.of_nat (String.length pw)
      = Z.max 10 (Z.of_nat (enabled_count (example_settings 10 true false true true))) /\
    (forall flag chars,
       (flag, chars) ∈ class_table symbols ->
       enabled (example_settings 10 true false true true) flag = true ->
       exists c, c ∈ list_ascii_of_string pw /\ c ∈ chars) /\
    (forall c, c ∈ list_ascii_of_string pw ->
       exists flag chars,
         (flag, chars) ∈ class_table symbols /\
         enabled (example_settings 10 true false true true) flag = true /\
         c ∈ chars).
Proof.
  apply (telegram_generate_password_spec _ (VInt 10) 10).
  - vm_compute. reflexivity.
  - reflexivity.
  - apply example_settings_flags.
  - vm_compute. lia.
Defined.

Lemma telegram_use_class_run settings flag chars acc g :
  chars <> [] ->
  (settings !! flag = None /\
   use_class settings flag chars acc g = (Raise (KeyError flag), g)) \/
  (is_Some (settings !! flag) /\
   exists acc' g', use_class settings flag chars acc g = (Ok acc', g')).
Proof.
  intros Hne. unfold use_class, mbind, M_bind, of_result, getitem.
  destruct (settings !! flag) as [on|]; [right|left; done].
  split; [eauto|]. destruct (truthy on); [|by eexists _, _].
  destruct (choice_ok chars g Hne) as (c & g' & -> & _). by eexists _, _.
Qed.

(** X21.  In [telegram_password_bot.py] the flags are read without a
    default: when a class flag is missing from the settings,
    [generate_password] raises [KeyError] for a missing flag instead of
    treating the class as disabled. *)
Theorem telegram_missing_flag_raises settings v flag g :
  settings !! "length" = Some v ->
  flag ∈ class_flags -> settings !! flag = None ->
  exists k g',
    k ∈ class_flags /\ settings !! k = None /\
    generate_password settings g = (Raise (KeyError k), g').
Proof.
  intros Hl Hin Hmiss. unfold generate_password.
  rewrite (bind_Ok _ _ g v g) by (unfold of_result, getitem; by rewrite Hl).
  destruct (telegram_use_class_run settings "use_lower" ascii_lowercase ([], []) g)
    as [[H1 E1]|[P1 (a1 & g1 & E1)]]; [done| |].
  { exists "use_lower", g. rewrite (bind_Raise _ _ _ _ _ E1).
    repeat split; [unfold class_flags; repeat constructor | done]. }
  rewrite (bind_Ok _ _ _ _ _ E1).
  destruct (telegram_use_class_run settings "use_upper" ascii_uppercase a1 g1)
    as [[H2 E2]|[P2 (a2 & g2 & E2)]]; [done| |].
  { exists "use_upper", g1. rewrite (bind_Raise _ _ _ _ _ E2).
    repeat split; [unfold class_flags; repeat constructor | done]. }
  rewrite (bind_Ok _ _ _ _ _ E2).
  destruct (telegram_use_class_run settings "use_digits" digits a2 g2)
    as [[H3 E3]|[P3 (a3 & g3 & E3)]]; [done| |].
  { exists "use_digits", g2. rewrite (bind_Raise _ _ _ _ _ E3).
    repeat split; [unfold class_flags; repeat constructor | done]. }
  rewrite (bind_Ok _ _ _ _ _ E3).
  destruct (telegram_use_class_run settings "use_symbols" symbols a3 g3)
    as [[H4 E4]|[P4 (a4 & g4 & E4)]]; [done| |].
  { exists "use_symbols", g3. rewrite (bind_Raise _ _ _ _ _ E4).
    repeat split; [unfold class_flags; repeat constructor | done]. }
  exfalso. unfold class_flags in Hin. rewrite !elem_of_cons, elem_of_nil in Hin.
  destruct Hin as [->|[->|[->|[->|[]]]]]; rewrite Hmiss in *;
    by match goal with H : is_Some None |- _ => destruct H end.
Qed.

Lemma telegram_missing_flag_witness :
  exists k g',
    k ∈ class_flags /\
    delete "use_upper" (example_settings 8 true true true true) !! k = None /\
    generate_password (delete "use_upper" (example_settings 8 true true true true))
      example_rng = (Raise (KeyError k), g').
Proof.
  apply (telegram_missing_flag_raises _ (VInt 8) "use_upper").
  - vm_compute. reflexivity.
  - unfold class_flags. repeat constructor.
  - vm_compute. reflexivity.
Defined.

(** X22.  In [telegram_password_bot.py], with the four flags present and
    none of them true, [generate_password] returns the fixed no-class
    message and draws no random number. *)
Theorem telegram_no_class settings v g :
  settings !! "length" = Some v ->
  (forall flag, flag ∈ class_flags ->
     exists on, settings !! flag = Some on /\ truthy on = false) ->
  generate_password settings g = (Ok NO_CLASS_MESSAGE, g).
Proof.
  intros Hl Hoff.
  destruct (Hoff "use_lower") as (o1 & H1 & T1); [unfold class_flags; repeat constructor|].
  destruct (Hoff "use_upper") as (o2 & H2 & T2); [unfold class_flags; repeat constructor|].
  destruct (Hoff "use_digits") as (o3 & H3 & T3); [unfold class_flags; repeat constructor|].
  destruct (Hoff "use_symbols") as (o4 & H4 & T4); [unfold class_flags; repeat constructor|].
  unfold generate_password, use_class, mbind, M_bind, of_result, getitem.
  by rewrite Hl, H1, H2, H3, H4, T1, T2, T3, T4.
Qed.

Lemma telegram_sentinel_witness :
  generate_password (example_settings 12 false false false false) example_rng
    = (Ok NO_CLASS_MESSAGE, example_rng).
Proof.
  apply (telegram_no_class _ (VInt 12)).
  - vm_compute. reflexivity.
  - intros flag. unfold class_flags. rewrite !elem_of_cons, elem_of_nil.
    intros [->|[->|[->|[->|[]]]]]; exists (VBool false); vm_compute; eauto.
Defined.

End TelegramGeneratorEdges.
